(** * Editable-slide export: the recursive composition engine, the page
      analysis fan-out and the inpaint providers

    Shallow embedding of
    - [backend/services/export_service.py]
      ([ExportService._add_editable_elements_to_slide] and
      [ExportService.create_editable_pptx_with_recursive_analysis]), and
    - [backend/services/image_editability/inpaint_providers.py]
      ([DefaultInpaintProvider] and [GenerativeEditInpaintProvider]).

    Conventions of the embedding.
    - The composition engine is given twice.  In the engine given first,
      Python [float] coordinates and scale factors are exact rationals
      ([Q]) and [int(x)] is truncation toward zero; rounding of float
      arithmetic, NaN and the infinities have no counterpart there.  In
      the engine of [Float64] they are binary64 floats, with the rounded
      products, differences and quotients of IEEE 754 and the exceptions
      of [int()]; the statements on frames, on scaling and on the dominant
      child are about that one.
    - A Python value that may be [None] (or a missing attribute) is an
      [option]; truthiness of strings and lists is written out.
    - Calls on collaborators that can raise return a [result]: the state
      they leave behind together with either a value or the exception.
      Exceptions are the instances of Python's [Exception], the class the
      source's [except Exception] clauses name. *)

From Stdlib Require Import ZArith QArith Qround Qpower Lia Ascii String.
From Stdlib Require Import PrimFloat FloatOps SpecFloat.
From stdpp Require Import base list strings gmap.

Local Open Scope Z_scope.

(** ** Python numbers *)

Module Py.

(** [int(x)] on a float: truncation toward zero. *)
Definition int (x : Q) : Z := Z.quot (Qnum x) (Zpos (Qden x)).

(** [x > y] on floats. *)
Definition gt (x y : Q) : bool := negb (Qle_bool x y).

(** [x / y] on floats: [None] stands for [ZeroDivisionError]. *)
Definition truediv (x y : Q) : option Q :=
  if Qeq_bool y 0 then None else Some (x / y)%Q.

(** Truthiness of an optional string: [None] and [''] are falsy. *)
Definition truthy (s : option string) : bool :=
  match s with
  | Some s => negb (String.eqb s "")
  | None => false
  end.

(** The characters [str.strip()] removes, among the code points below
    128: tab, line feed, vertical tab, form feed, carriage return, the
    four separators 0x1c-0x1f and the space. *)
Definition isspace (c : ascii) : bool :=
  let n := nat_of_ascii c in
  ((9 <=? n) && (n <=? 13) || (28 <=? n) && (n <=? 32))%nat.

Fixpoint lstrip (s : string) : string :=
  match s with
  | EmptyString => EmptyString
  | String c s' => if isspace c then lstrip s' else s
  end.

Fixpoint rstrip (s : string) : string :=
  match s with
  | EmptyString => EmptyString
  | String c s' =>
      match rstrip s' with
      | EmptyString => if isspace c then EmptyString else String c EmptyString
      | t => String c t
      end
  end.

Definition strip (s : string) : string := rstrip (lstrip s).

End Py.

(** ** Exceptions and results *)

(** An exception, identified by its message. *)
Inductive exn := Exception (msg : string).

(** The result of a call that runs on a state [S]: the state it leaves,
    and the value it returns or the exception it raises. *)
Inductive result (S A : Type) :=
| Ok (a : A) (s : S)
| Raise (e : exn) (s : S).
Arguments Ok {S A} a s.
Arguments Raise {S A} e s.

Definition bind {S A B} (r : result S A) (k : A -> S -> result S B) : result S B :=
  match r with
  | Ok a s => k a s
  | Raise e s => Raise e s
  end.

(** [try: c  except Exception as e: logger...(e)]: the exception is
    logged and dropped, the state reached is kept. *)
Definition try_except {S} (r : result S unit) : result S unit :=
  match r with
  | Ok _ s => Ok tt s
  | Raise _ s => Ok tt s
  end.

Definition state_of {S A} (r : result S A) : S :=
  match r with
  | Ok _ s => s
  | Raise _ s => s
  end.

Definition raised {S A} (r : result S A) : bool :=
  match r with
  | Ok _ _ => false
  | Raise _ _ => true
  end.

(** ** Data model *)

(** Modelled from the spec: the class [BBox] of
    [services/image_editability], imported but not defined in the files at
    hand; four coordinates and the derived [area = (x1-x0)*(y1-y0)]. *)
Record BBox := mkBBox { x0 : Q; y0 : Q; x1 : Q; y1 : Q }.

Definition area (b : BBox) : Q := ((x1 b - x0 b) * (y1 b - y0 b))%Q.

(** Modelled from the spec: the class [EditableElement], with the
    attributes [_add_editable_elements_to_slide] reads.  [bbox_global] is
    [None] when the attribute is missing or falsy. *)
#[warnings="-register-all"]
Inductive EditableElement := mkElement {
  element_id : string;
  element_type : string;
  content : option string;
  bbox : BBox;
  bbox_global : option BBox;
  image_path : option string;
  inpainted_background_path : option string;
  children : list EditableElement
}.

(** Modelled from the spec: the page-level aggregate [EditableImage]. *)
Record EditableImage := mkEditableImage {
  page_image_path : string;
  clean_background : option string;
  elements : list EditableElement
}.

(** ** The builder interface *)

(** The methods of [utils.pptx_builder.PPTXBuilder] the export service
    calls, on a builder state [B].  The slide argument of the source is the
    slide added last: the service fills each slide right after it adds it. *)
Class PPTXBuilder (B : Type) := {
  setup_presentation : Z -> Z -> result B unit;
  add_blank_slide : B -> result B unit;
  add_picture : B -> string -> result B unit;
  add_text_element :
    B -> string -> list Z -> option string -> option string -> result B unit;
  add_image_element : B -> string -> list Z -> result B unit;
  add_image_placeholder : B -> list Z -> result B unit;
  save : B -> string -> result B unit;
  to_bytes : B -> result B (list Z)
}.

(** ** The composition engine *)

Section Composition.

Context {B : Type} `{PPTXBuilder B}.

(** [os.path.exists], constant while a page is composed. *)
Variable path_exists : string -> bool.

(** Lines 589-592: the frame an element is placed in. *)
Definition select_bbox (depth : nat) (elem : EditableElement) : BBox :=
  if (depth =? 0)%nat then bbox elem
  else match bbox_global elem with
       | Some g => g
       | None => bbox elem
       end.

(** Lines 595-600: [bbox_list]. *)
Definition bbox_list (b : BBox) (scale_x scale_y : Q) : list Z :=
  [ Py.int (x0 b * scale_x); Py.int (y0 b * scale_y);
    Py.int (x1 b * scale_x); Py.int (y1 b * scale_y) ].

Definition max_child_coverage_ratio : Q := 0.85.

(** Lines 694-697. *)
Definition child_bbox (child : EditableElement) : BBox :=
  match bbox_global child with
  | Some g => g
  | None => bbox child
  end.

(** Line 700: [child_area / parent_area if parent_area > 0 else 0];
    [None] is a [ZeroDivisionError]. *)
Definition coverage_ratio (child_area parent_area : Q) : option Q :=
  if Py.gt parent_area 0 then Py.truediv child_area parent_area else Some 0%Q.

(** Lines 691-705: the loop over the children, left at the first child
    whose coverage is above the threshold. *)
Fixpoint has_dominant_child (cs : list EditableElement) (parent_area : Q)
  : option bool :=
  match cs with
  | [] => Some false
  | child :: cs' =>
      match coverage_ratio (area (child_bbox child)) parent_area with
      | None => None
      | Some r =>
          if Py.gt r max_child_coverage_ratio then Some true
          else has_dominant_child cs' parent_area
      end
  end.

(** Lines 685-707: [should_use_recursive_render] for an element placed in
    frame [b]. *)
Definition should_use_recursive_render (elem : EditableElement) (b : BBox)
  : option bool :=
  match children elem with
  | [] => Some false
  | _ :: _ =>
      if Py.truthy (inpainted_background_path elem) then
        let parent_area := ((x1 b - x0 b) * (y1 b - y0 b))%Q in
        option_map negb (has_dominant_child (children elem) parent_area)
      else Some false
  end.

(** The statements of a [for] loop over elements, run in order; an
    exception leaves the loop. *)
Definition for_each (body : EditableElement -> B -> result B unit)
  : list EditableElement -> B -> result B unit :=
  fix loop (l : list EditableElement) (b : B) : result B unit :=
    match l with
    | [] => Ok tt b
    | e :: l' => bind (body e b) (fun _ => loop l')
    end.

(** Lines 670-681 and 732-743: the flattened rendering of an element. *)
Definition add_flattened (elem : EditableElement) (bl : list Z) (b : B)
  : result B unit :=
  match image_path elem with
  | Some p =>
      if negb (String.eqb p "") && path_exists p
      then try_except (add_image_element b p bl)
      else add_image_placeholder b bl
  | None => add_image_placeholder b bl
  end.

(** Lines 648-656 and 714-718: the inpainted background, added when its
    file exists. *)
Definition add_background (elem : EditableElement) (bl : list Z) (b : B)
  : result B unit :=
  match inpainted_background_path elem with
  | Some p =>
      if path_exists p then try_except (add_image_element b p bl)
      else Ok tt b
  | None => Ok tt b
  end.

(** Lines 607-621 and 625-640: a text box for non-blank content. *)
Definition add_text (elem : EditableElement) (bl : list Z)
    (text_level align : option string) (b : B) : result B unit :=
  match content elem with
  | Some c =>
      if negb (String.eqb c "") then
        let text := Py.strip c in
        if negb (String.eqb text "")
        then try_except (add_text_element b text bl text_level align)
        else Ok tt b
      else Ok tt b
  | None => Ok tt b
  end.

(** Lines 584-747: the body of the loop of
    [_add_editable_elements_to_slide], for one element. *)
Fixpoint add_editable_element (scale_x scale_y : Q) (depth : nat)
    (elem : EditableElement) (b : B) {struct elem} : result B unit :=
  let elem_type := element_type elem in
  let frame := select_bbox depth elem in
  let bl := bbox_list frame scale_x scale_y in
  let recurse :=
    for_each (add_editable_element scale_x scale_y (S depth)) (children elem) in
  if String.eqb elem_type "text" || String.eqb elem_type "title" then
    let level := if String.eqb elem_type "title" then "title" else "default" in
    add_text elem bl (Some level) None b
  else if String.eqb elem_type "table_cell" then
    add_text elem bl None (Some "center") b
  else if String.eqb elem_type "table" then
    match children elem with
    | _ :: _ =>
        if Py.truthy (inpainted_background_path elem)
        then bind (add_background elem bl b) (fun _ => recurse)
        else add_flattened elem bl b
    | [] => add_flattened elem bl b
    end
  else if String.eqb elem_type "image" || String.eqb elem_type "figure"
          || String.eqb elem_type "chart" then
    match should_use_recursive_render elem frame with
    | None => Raise (Exception "ZeroDivisionError") b
    | Some true => bind (add_background elem bl b) (fun _ => recurse)
    | Some false => add_flattened elem bl b
    end
  else Ok tt b.

(** [ExportService._add_editable_elements_to_slide]. *)
Definition _add_editable_elements_to_slide (elements : list EditableElement)
    (scale_x scale_y : Q) (depth : nat) (b : B) : result B unit :=
  for_each (add_editable_element scale_x scale_y depth) elements b.

End Composition.

(** ** The dominant-child test on binary64 floats *)

(** Lines 690 and 700-702 on the floats Python computes with, next to the
    rational model above.  The guard keeps [/] from a zero divisor, where
    Python would raise. *)
Module Binary64.

(** The double nearest to 0.85, which the literal [0.85] denotes. *)
Definition max_child_coverage_ratio : float := 0x1.b333333333333p-1%float.

Definition coverage_ratio (child_area parent_area : float) : float :=
  if PrimFloat.ltb 0 parent_area then (child_area / parent_area)%float
  else 0%float.


End Binary64.

(** ** A builder that records its calls *)

(** The calls the export service makes on the builder. *)
Inductive call :=
| SetupPresentation (width height : Z)
| AddBlankSlide
| AddPicture (path : string)
| AddText (text : string) (bbox : list Z) (text_level align : option string)
| AddImage (image_path : string) (bbox : list Z)
| AddPlaceholder (bbox : list Z)
| Save (file : string)
| ToBytes.

(** One entry per call made, in order, with whether the call raised. *)
Definition log := list (call * bool).

Definition is_placeholder (c : call) : bool :=
  match c with
  | AddPlaceholder _ => true
  | _ => false
  end.

Section Recorder.

(** Which calls raise, given the calls made so far. *)
Variable fails : log -> call -> bool.

Definition record (c : call) (l : log) : result log unit :=
  if fails l c
  then Raise (Exception "builder error") (l ++ [(c, true)])
  else Ok tt (l ++ [(c, false)]).

#[local] Instance recorder : PPTXBuilder log := {
  setup_presentation w h := record (SetupPresentation w h) [];
  add_blank_slide l := record AddBlankSlide l;
  add_picture l p := record (AddPicture p) l;
  add_text_element l text bl level align := record (AddText text bl level align) l;
  add_image_element l p bl := record (AddImage p bl) l;
  add_image_placeholder l bl := record (AddPlaceholder bl) l;
  save l f := record (Save f) l;
  to_bytes l :=
    bind (record ToBytes l) (fun _ l' => Ok [Z.of_nat (length l')] l')
}.

End Recorder.

(** The calls attempted, and the calls that went through. *)
Definition attempted (l : log) : list call := l.*1.
Definition performed (l : log) : list call := (filter (fun e => e.2 = false) l).*1.

(** ** The page analysis fan-out and the export entry point *)

(** What [create_editable_pptx_with_recursive_analysis] leaves: either an
    exception, with the document built so far when a builder exists, or the
    returned value ([None] after [builder.save]) and the document. *)
Inductive export_outcome (B : Type) :=
| ExportRaised (e : exn) (doc : option B)
| Exported (returned : option (list Z)) (doc : B).
Arguments ExportRaised {B} e doc.
Arguments Exported {B} returned doc.

Section ExportService.

Context {B : Type} `{PPTXBuilder B}.

Variable path_exists : string -> bool.

(** [ImageEditabilityService.make_image_editable] on one page: the
    analysis of a page depends on that page only. *)
Variable make_image_editable : string -> exn + EditableImage.

(** A future of the executor: the index it is tagged with in the
    [futures] dictionary, and what [future.result()] gives. *)
Definition future : Type := nat * (exn + EditableImage).

(** Lines 478-481: one future per page, tagged with the page index. *)
Definition submit_all (image_paths : list string) : list future :=
  imap (fun idx img_path => (idx, make_image_editable img_path)) image_paths.

(** Lines 484-490: the loop over [as_completed(futures)]; [completed] is
    the order in which the futures are yielded. *)
Fixpoint collect (completed : list future)
    (results : list (option EditableImage))
  : exn + list (option EditableImage) :=
  match completed with
  | [] => inr results
  | (idx, r) :: rest =>
      match r with
      | inr v =>
          if (idx <? length results)%nat
          then collect rest (<[idx := Some v]> results)
          else inl (Exception "IndexError")
      | inl e => inl e
      end
  end.

(** Lines 476-492. *)
Definition analyse_pages (image_paths : list string) (completed : list future)
  : exn + list (option EditableImage) :=
  collect completed (replicate (length image_paths) None).

(** Lines 509-533: the slide background. *)
Definition add_page_background (img : EditableImage) (b : B) : result B unit :=
  match clean_background img with
  | Some bg =>
      if negb (String.eqb bg "") && path_exists bg
      then try_except (add_picture b bg)
      else try_except (add_picture b (page_image_path img))
  | None => try_except (add_picture b (page_image_path img))
  end.

(** Lines 503-548: one page. *)
Definition build_page (page : option EditableImage) (b : B) : result B unit :=
  bind (add_blank_slide b) (fun _ b1 =>
    match page with
    | None => Raise (Exception "AttributeError") b1
    | Some img =>
        bind (add_page_background img b1) (fun _ b2 =>
          _add_editable_elements_to_slide path_exists (elements img) 1 1 0 b2)
    end).

Fixpoint build_pages (pages : list (option EditableImage)) (b : B)
  : result B unit :=
  match pages with
  | [] => Ok tt b
  | page :: rest => bind (build_page page b) (fun _ => build_pages rest)
  end.

(** Lines 494-558: the document of the analysed pages. *)
Definition build_document (editable_images : list (option EditableImage))
    (output_file : option string) (slide_width_pixels slide_height_pixels : Z)
  : export_outcome B :=
  match bind (setup_presentation slide_width_pixels slide_height_pixels)
             (fun _ => build_pages editable_images) with
  | Raise e b => ExportRaised e (Some b)
  | Ok _ b =>
      if Py.truthy output_file then
        match save b (default "" output_file) with
        | Ok _ b' => Exported None b'
        | Raise e b' => ExportRaised e (Some b')
        end
      else
        match to_bytes b with
        | Ok pptx_bytes b' => Exported (Some pptx_bytes) b'
        | Raise e b' => ExportRaised e (Some b')
        end
  end.

(** [ExportService.create_editable_pptx_with_recursive_analysis];
    [completed] is the order in which [as_completed] yields the futures.
    The service built from [mineru_token], [mineru_api_base] and
    [max_depth] is the parameter [make_image_editable] of [submit_all];
    [max_workers] bounds the pool and leaves no trace in what is
    returned. *)
Definition create_editable_pptx_with_recursive_analysis
    (image_paths : option (list string)) (output_file : option string)
    (slide_width_pixels slide_height_pixels : Z)
    (editable_images : option (list EditableImage))
    (completed : list future) : export_outcome B :=
  match editable_images with
  | Some imgs =>
      build_document (Some <$> imgs) output_file
        slide_width_pixels slide_height_pixels
  | None =>
      match image_paths with
      | None | Some [] => ExportRaised (Exception "ValueError") None
      | Some paths =>
          match analyse_pages paths completed with
          | inl e => ExportRaised e None
          | inr results =>
              build_document results output_file
                slide_width_pixels slide_height_pixels
          end
      end
  end.

End ExportService.

(** ** The inpaint providers *)

Module Inpaint.

Section Providers.

(** [PIL.Image.Image]. *)
Variable Image : Type.

(** The values that travel in [**kwargs]. *)
Inductive pyval :=
| PInt (n : Z)
| PBool (b : bool)
| PStr (s : string)
| PTuple (t : list Z)
| PImage (img : Image)
| PNone.

(** [kwargs.get(key, default)]. *)
Definition kwargs_get (kwargs : gmap string pyval) (key : string) (dflt : pyval)
  : pyval :=
  default dflt (kwargs !! key).

(** *** [DefaultInpaintProvider] *)

(** The keyword arguments of
    [InpaintingService.remove_regions_by_bboxes]. *)
Record remove_regions_args := {
  arg_image : Image;
  arg_bboxes : list (list Z);
  arg_expand_pixels : pyval;
  arg_merge_bboxes : pyval;
  arg_merge_threshold : pyval;
  arg_save_mask_path : pyval;
  arg_full_page_image : pyval;
  arg_crop_box : pyval
}.

(** [self.inpainting_service]: its one method returns an image or [None],
    or raises. *)
Record DefaultInpaintProvider := {
  remove_regions_by_bboxes : remove_regions_args -> exn + option Image
}.

(** [DefaultInpaintProvider.inpaint_regions]: [inl e] when the call
    raises [e], [inr r] when it returns [r]. *)
Definition default_inpaint_regions (self : DefaultInpaintProvider)
    (image : Image) (bboxes : list (list Z)) (types : option (list string))
    (kwargs : gmap string pyval) : exn + option Image :=
  let expand_pixels := kwargs_get kwargs "expand_pixels" (PInt 10) in
  let merge_bboxes := kwargs_get kwargs "merge_bboxes" (PBool false) in
  let merge_threshold := kwargs_get kwargs "merge_threshold" (PInt 20) in
  let save_mask_path := kwargs_get kwargs "save_mask_path" PNone in
  let full_page_image := kwargs_get kwargs "full_page_image" PNone in
  let crop_box := kwargs_get kwargs "crop_box" PNone in
  match remove_regions_by_bboxes self
          {| arg_image := image; arg_bboxes := bboxes;
             arg_expand_pixels := expand_pixels;
             arg_merge_bboxes := merge_bboxes;
             arg_merge_threshold := merge_threshold;
             arg_save_mask_path := save_mask_path;
             arg_full_page_image := full_page_image;
             arg_crop_box := crop_box |} with
  | inr result_img => inr result_img
  | inl _ => inr None
  end.

(** *** [GenerativeEditInpaintProvider] *)

(** What [ai_service.edit_image] can return: a falsy value, a PIL image,
    an object with a [_pil_image] attribute, or any other object. *)
Inductive edited :=
| EditedFalsy
| EditedPIL (img : Image)
| EditedGenAI (_pil_image : option Image)
| EditedOther.

(** The provider and what it calls.  The files on disk are a set of paths;
    of the calls below only [NamedTemporaryFile] changes it. *)
Record GenerativeEditInpaintProvider := {
  self_aspect_ratio : pyval;
  self_resolution : pyval;
  (** [services.prompts.get_clean_background_prompt()]. *)
  get_clean_background_prompt : exn + string;
  (** The name [tempfile.NamedTemporaryFile(suffix='.png', delete=False)]
      picks on the given disk, when it does not raise. *)
  temp_name : gset string -> exn + string;
  (** [image.save(tmp_path)], [Some e] when it raises [e]. *)
  image_save : Image -> string -> option exn;
  (** [ai_service.edit_image(prompt, current_image_path, aspect_ratio,
      resolution, None, None)]. *)
  edit_image : string -> string -> pyval -> pyval -> exn + edited
}.

(** Lifting of a call that leaves the disk alone. *)
Definition call_pure {A} (r : exn + A) (fs : gset string) : result (gset string) A :=
  match r with
  | inr a => Ok a fs
  | inl e => Raise e fs
  end.

(** Lines 167-169: the temporary file is created, and kept when the
    [with] block is left ([delete=False]). *)
Definition NamedTemporaryFile (self : GenerativeEditInpaintProvider)
    (fs : gset string) : result (gset string) string :=
  match temp_name self fs with
  | inr tmp_path => Ok tmp_path ({[tmp_path]} ∪ fs)
  | inl e => Raise e fs
  end.

(** Lines 161-197: the body of the [try] block. *)
Definition generative_try_body (self : GenerativeEditInpaintProvider)
    (image : Image) (aspect_ratio resolution : pyval) (fs : gset string)
  : result (gset string) (option Image) :=
  bind (call_pure (get_clean_background_prompt self) fs) (fun edit_instruction fs =>
  bind (NamedTemporaryFile self fs) (fun tmp_path fs =>
  bind (call_pure (match image_save self image tmp_path with
                   | Some e => inl e
                   | None => inr tt
                   end) fs) (fun _ fs =>
  bind (call_pure (edit_image self edit_instruction tmp_path aspect_ratio resolution) fs)
    (fun clean_bg_image fs =>
       match clean_bg_image with
       | EditedFalsy => Ok None fs
       | EditedPIL img => Ok (Some img) fs
       | EditedGenAI pil => Ok pil fs
       | EditedOther => Ok None fs
       end)))).

(** [GenerativeEditInpaintProvider.inpaint_regions], on the disk [fs]. *)
Definition generative_inpaint_regions (self : GenerativeEditInpaintProvider)
    (image : Image) (bboxes : list (list Z)) (types : option (list string))
    (kwargs : gmap string pyval) (fs : gset string)
  : result (gset string) (option Image) :=
  let aspect_ratio := kwargs_get kwargs "aspect_ratio" (self_aspect_ratio self) in
  let resolution := kwargs_get kwargs "resolution" (self_resolution self) in
  match generative_try_body self image aspect_ratio resolution fs with
  | Ok r fs' => Ok r fs'
  | Raise _ fs' => Ok None fs'
  end.

(** The temporary file a call creates: the name picked, when the prompt
    was obtained and the file could be created. *)
Definition created_temp_file (self : GenerativeEditInpaintProvider)
    (fs : gset string) : option string :=
  match get_clean_background_prompt self, temp_name self fs with
  | inr _, inr tmp_path => Some tmp_path
  | _, _ => None
  end.

End Providers.

End Inpaint.

(** ** Definitions used in the statements *)

(** Rounding of a rational toward zero: down when it is not negative, up
    when it is. *)
Definition round_toward_zero (q : Q) : Z :=
  if Qle_bool 0 q then Qfloor q else Qceiling q.

(** A child exceeds its share when its area is above 0.85 times the
    parent's area. *)
Definition exceeds_share (parent_area : Q) (child : EditableElement) : bool :=
  Py.gt (area (child_bbox child)) (0.85 * parent_area).

(** The dominant-child rule with the guard of the source: recursion is
    enabled when there are children, a background path is set, and the
    parent's area is not positive or no child exceeds its share. *)
Definition guarded_recursion_enabled (elem : EditableElement) (frame : BBox)
  : bool :=
  negb (bool_decide (children elem = []))
  && Py.truthy (inpainted_background_path elem)
  && forallb (fun child =>
                negb (Py.gt (area frame) 0 && exceeds_share (area frame) child))
       (children elem).

(** Is the element of one of the types of the image branch? *)
Definition is_image_type (elem : EditableElement) : bool :=
  String.eqb (element_type elem) "image"
  || String.eqb (element_type elem) "figure"
  || String.eqb (element_type elem) "chart".

(** No placeholder call raises (the engine calls [add_image_placeholder]
    outside any [try]). *)
Definition placeholders_safe (fails : log -> call -> bool) : Prop :=
  forall l bl, fails l (AddPlaceholder bl) = false.

(** A run of builder calls on the recording builder, for each choice of
    the calls that raise, attempts the calls [cs] and does not raise, as
    long as no placeholder call raises. *)
Definition emits (run : (log -> call -> bool) -> log -> result log unit)
    (cs : list call) : Prop :=
  forall fails l0, placeholders_safe fails ->
    raised (run fails l0) = false
    /\ attempted (state_of (run fails l0)) = attempted l0 ++ cs.

(** ** Sample inputs *)

Module Samples.

Definition box (a b c d : Q) : BBox := mkBBox a b c d.

Definition text_elem (id s : string) (l : BBox) (g : option BBox)
  : EditableElement :=
  mkElement id "text" (Some s) l g None None [].

Definition cell (id s : string) (l g : BBox) : EditableElement :=
  mkElement id "table_cell" (Some s) l (Some g) None None [].

(** A picture of area 1000 with one child of the given width and height
    10. *)
Definition picture (child_width : Q) : EditableElement :=
  mkElement "pic" "image" None (box 0 0 100 10) None
    (Some "pic.png") (Some "pic_bg.png")
    [text_elem "label" "label" (box 0 0 1 1) (Some (box 0 0 child_width 10))].

(** A picture whose own box has width zero. *)
Definition flat_picture : EditableElement :=
  mkElement "flat" "figure" None (box 5 0 5 10) None
    (Some "flat.png") (Some "flat_bg.png")
    [text_elem "inner" "inner" (box 0 0 1 1) (Some (box 0 0 10 10))].

(** A table with one cell and a background path. *)
Definition table : EditableElement :=
  mkElement "tab" "table" None (box 0 0 100 50) None
    (Some "tab.png") (Some "tab_bg.png")
    [cell "c00" "42" (box 0 0 10 5) (box 10 10 20 15)].


Definition heading : EditableElement :=
  mkElement "h" "title" (Some " Results ") (box (-1 # 2) 0 300 40)
    (Some (box 7 7 8 8)) None None [].

Definition page : list EditableElement :=
  [heading; picture 84.9; table; picture 85.1].

(** A disk without files, and one with every file. *)
Definition no_file : string -> bool := fun _ => false.
Definition every_file : string -> bool := fun _ => true.

(** Builders: one whose calls all go through, one whose every call but
    the placeholder raises. *)
Definition never_fails : log -> call -> bool := fun _ _ => false.
Definition only_placeholders : log -> call -> bool :=
  fun _ c => negb (is_placeholder c).

(** Three pages, the second of which cannot be analysed. *)
Definition blank (p : string) : EditableImage := mkEditableImage p None [].

Definition analysis_ok (p : string) : exn + EditableImage := inr (blank p).

Definition analysis_page2_fails (p : string) : exn + EditableImage :=
  if String.eqb p "p2.png" then inl (Exception "analysis failed")
  else inr (blank p).

Definition three_pages : list string := ["p1.png"; "p2.png"; "p3.png"].

(** Completion in the order third, first, second. *)
Definition completion_312 (f : string -> exn + EditableImage) : list future :=
  [(2%nat, f "p3.png"); (0%nat, f "p1.png"); (1%nat, f "p2.png")].

(** A generative provider whose calls all succeed; images are numbers. *)
Definition working_provider : Inpaint.GenerativeEditInpaintProvider nat :=
  {| Inpaint.self_aspect_ratio := Inpaint.PStr nat "16:9";
     Inpaint.self_resolution := Inpaint.PStr nat "2K";
     Inpaint.get_clean_background_prompt := inr "remove the text";
     Inpaint.temp_name := fun _ => inr "/tmp/tmpa1b2c3.png";
     Inpaint.image_save := fun _ _ => None;
     Inpaint.edit_image := fun _ _ _ _ => inr (Inpaint.EditedPIL nat 7%nat) |}.

(** The same provider with an editing service that raises. *)
Definition failing_provider : Inpaint.GenerativeEditInpaintProvider nat :=
  {| Inpaint.self_aspect_ratio := Inpaint.PStr nat "16:9";
     Inpaint.self_resolution := Inpaint.PStr nat "2K";
     Inpaint.get_clean_background_prompt := inr "remove the text";
     Inpaint.temp_name := fun _ => inr "/tmp/tmpa1b2c3.png";
     Inpaint.image_save := fun _ _ => None;
     Inpaint.edit_image := fun _ _ _ _ => inl (Exception "quota exceeded") |}.

End Samples.

(** * Further definitions *)

(** ** The composition engine, seen from its calls *)

(** An element with its children replaced. *)
Definition with_children (cs : list EditableElement) (e : EditableElement)
  : EditableElement :=
  mkElement (element_id e) (element_type e) (content e) (bbox e) (bbox_global e)
    (image_path e) (inpainted_background_path e) cs.

(** The number of elements of a tree and of a list of trees. *)
Definition count_with (f : EditableElement -> nat) : list EditableElement -> nat :=
  fix total (l : list EditableElement) : nat :=
    match l with
    | [] => 0%nat
    | e :: l' => (f e + total l')%nat
    end.

Fixpoint node_count (e : EditableElement) : nat :=
  S (count_with node_count (children e)).

Definition forest_count (l : list EditableElement) : nat :=
  count_with node_count l.

(** Is the element of a type whose children the engine may compose? *)
Definition is_container_type (elem : EditableElement) : bool :=
  String.eqb (element_type elem) "table" || is_image_type elem.

(** What the engine asks of the builder: text that is not blank and has no
    blank at either end, images whose file exists, placeholders. *)
Definition engine_call_ok (path_exists : string -> bool) (c : call) : Prop :=
  match c with
  | AddText text _ _ _ => text <> "" /\ Py.strip text = text
  | AddImage p _ => p <> "" /\ path_exists p = true
  | AddPlaceholder _ => True
  | _ => False
  end.

(** A run on the recording builder keeps the calls made before it and adds
    at most [n] calls, each satisfying [P]. *)
Definition appends (P : call -> Prop) (n : nat) (run : log -> result log unit)
  : Prop :=
  forall l0, exists new,
    state_of (run l0) = l0 ++ new
    /\ Forall P (attempted new)
    /\ (length new <= n)%nat.

(** The body of the loop of [_add_editable_elements_to_slide] with the
    recursive call on the children as a parameter. *)
Definition element_dispatch {B : Type} `{PPTXBuilder B}
    (path_exists : string -> bool) (scale_x scale_y : Q) (depth : nat)
    (recurse : B -> result B unit) (elem : EditableElement) (b : B)
  : result B unit :=
  let bl := bbox_list (select_bbox depth elem) scale_x scale_y in
  if String.eqb (element_type elem) "text" || String.eqb (element_type elem) "title"
  then
    add_text elem bl
      (Some (if String.eqb (element_type elem) "title" then "title" else "default"))
      None b
  else if String.eqb (element_type elem) "table_cell" then
    add_text elem bl None (Some "center") b
  else if String.eqb (element_type elem) "table" then
    if negb (bool_decide (children elem = []))
       && Py.truthy (inpainted_background_path elem)
    then bind (add_background path_exists elem bl b) (fun _ => recurse)
    else add_flattened path_exists elem bl b
  else if is_image_type elem then
    if guarded_recursion_enabled elem (select_bbox depth elem)
    then bind (add_background path_exists elem bl b) (fun _ => recurse)
    else add_flattened path_exists elem bl b
  else Ok tt b.

(** ** The export, seen from its calls *)

(** The picture a page's slide is filled with: the clean background when
    one is set and its file exists, the page image otherwise. *)
Definition page_background (path_exists : string -> bool) (img : EditableImage)
  : string :=
  match clean_background img with
  | Some bg =>
      if negb (String.eqb bg "") && path_exists bg then bg
      else page_image_path img
  | None => page_image_path img
  end.

(** Does a call add a picture, a text box or an image, the calls the
    export service makes inside a [try]? *)
Definition is_guarded_call (c : call) : bool :=
  match c with
  | AddPicture _ | AddText _ _ _ _ | AddImage _ _ => true
  | _ => false
  end.

(** Only calls made inside a [try] raise. *)
Definition only_guarded_calls_fail (fails : log -> call -> bool) : Prop :=
  forall l c, fails l c = true -> is_guarded_call c = true.

Definition is_blank_slide (c : call) : bool :=
  match c with
  | AddBlankSlide => true
  | _ => false
  end.

(** The number of slides a log has added. *)
Definition slide_count (l : log) : nat :=
  length (filter (fun c => is_blank_slide c = true) (attempted l)).

(** ** The MinerU items: Python values *)

(** The values of a MinerU [content_list] item, a JSON object read into
    Python. *)
#[warnings="-register-all"]
Inductive jval :=
| JNone
| JBool (b : bool)
| JNum (q : Q)
| JStr (s : string)
| JList (l : list jval)
| JDict (d : gmap string jval).

Module PyVal.

(** Truthiness. *)
Definition truthy (v : jval) : bool :=
  match v with
  | JNone => false
  | JBool b => b
  | JNum q => negb (Qeq_bool q 0)
  | JStr s => negb (String.eqb s "")
  | JList l => match l with [] => false | _ :: _ => true end
  | JDict d => negb (Nat.eqb (size d) 0)
  end.

(** [len(v)]; [None], booleans and numbers have no length.  The length
    of a string is its number of characters, for code points below 128. *)
Definition len (v : jval) : exn + nat :=
  match v with
  | JStr s => inr (String.length s)
  | JList l => inr (length l)
  | JDict d => inr (size d)
  | _ => inl (Exception "TypeError")
  end.

(** [v == s] for a string literal [s]. *)
Definition eq_str (v : jval) (s : string) : bool :=
  match v with
  | JStr t => String.eqb t s
  | _ => false
  end.

(** [v == 1]: the number 1, and [True]. *)
Definition eq_one (v : jval) : bool :=
  match v with
  | JNum q => Qeq_bool q 1
  | JBool b => b
  | _ => false
  end.

(** [int(v * scale)] for a float [scale]: numbers and booleans multiply,
    every other value raises [TypeError]. *)
Definition int_times (v : jval) (scale : Q) : exn + Z :=
  match v with
  | JNum q => inr (Py.int (q * scale))
  | JBool b => inr (Py.int ((if b then 1 else 0) * scale))
  | _ => inl (Exception "TypeError")
  end.

(** [d.get(key, dflt)]. *)
Definition get (d : gmap string jval) (key : string) (dflt : jval) : jval :=
  default dflt (d !! key).

End PyVal.

(** Sequencing of calls that return or raise without a state. *)
Definition and_then {A C : Type} (r : exn + A) (k : A -> exn + C) : exn + C :=
  match r with
  | inr a => k a
  | inl e => inl e
  end.

(** Lines 194-208 and 318-332: the [bbox] of an item, checked, copied,
    unpacked and scaled.  [inr None] stands for the early [return] on a
    missing, empty or wrongly sized [bbox]; a string of four characters has
    no [copy], the four keys of a dictionary do not multiply. *)
Definition scaled_item_bbox (bbox : jval) (scale_x scale_y : Q)
  : exn + option (list Z) :=
  if negb (PyVal.truthy bbox) then inr None
  else
    and_then (PyVal.len bbox) (fun n =>
      if negb (Nat.eqb n 4) then inr None
      else
        match bbox with
        | JList [vx0; vy0; vx1; vy1] =>
            and_then (PyVal.int_times vx0 scale_x) (fun a =>
            and_then (PyVal.int_times vy0 scale_y) (fun b =>
            and_then (PyVal.int_times vx1 scale_x) (fun c =>
            and_then (PyVal.int_times vy1 scale_y) (fun d =>
              inr (Some [a; b; c; d])))))
        | JStr _ => inl (Exception "AttributeError")
        | _ => inl (Exception "TypeError")
        end).

(** The builder of the MinerU path: the builder above and
    [add_table_element]. *)
Class TableBuilder (B : Type) `{PPTXBuilder B} := {
  add_table_element : B -> jval -> list Z -> result B unit
}.

Section MinerU.

Context {B : Type} `{TableBuilder B}.

Variable path_exists : string -> bool.

(** [pathlib]: [dir / name] and [Path(s).name]. *)
Variable path_join : string -> string -> string.
Variable path_name : string -> string.

(** Lines 190-234: [ExportService._add_mineru_text_to_slide]. *)
Definition _add_mineru_text_to_slide (text_item : gmap string jval)
    (scale_x scale_y : Q) (b : B) : result B unit :=
  match PyVal.get text_item "text" (JStr "") with
  | JStr raw =>
      let text := Py.strip raw in
      if String.eqb text "" then Ok tt b
      else
        match scaled_item_bbox (PyVal.get text_item "bbox" JNone) scale_x scale_y with
        | inl e => Raise e b
        | inr None => Ok tt b
        | inr (Some bbox) =>
            let item_type := PyVal.get text_item "type" (JStr "text") in
            let text_level := PyVal.get text_item "text_level" JNone in
            let level :=
              if PyVal.eq_str item_type "title" || PyVal.eq_one text_level
              then "title" else "default" in
            try_except (add_text_element b text bbox (Some level) None)
        end
  | _ => Raise (Exception "AttributeError") b
  end.

(** Lines 261-294: the body of the loop of
    [_add_table_cell_elements_to_slide], for one cell. *)
Definition add_table_cell (scale_x scale_y : Q) (cell_elem : jval) (b : B)
  : result B unit :=
  match cell_elem with
  | JDict cell =>
      let text := PyVal.get cell "content" (JStr "") in
      let bbox_global := PyVal.get cell "bbox_global" (JDict ∅) in
      match text with
      | JStr s =>
          if String.eqb (Py.strip s) "" then Ok tt b
          else
            match bbox_global with
            | JDict g =>
                match
                  and_then (PyVal.int_times (PyVal.get g "x0" (JNum 0)) scale_x) (fun a =>
                  and_then (PyVal.int_times (PyVal.get g "y0" (JNum 0)) scale_y) (fun b' =>
                  and_then (PyVal.int_times (PyVal.get g "x1" (JNum 0)) scale_x) (fun c =>
                  and_then (PyVal.int_times (PyVal.get g "y1" (JNum 0)) scale_y) (fun d =>
                    inr [a; b'; c; d]))))
                with
                | inr bbox =>
                    try_except (add_text_element b s bbox None (Some "center"))
                | inl e => Raise e b
                end
            | _ => Raise (Exception "AttributeError") b
            end
      | _ => Raise (Exception "AttributeError") b
      end
  | _ => Raise (Exception "AttributeError") b
  end.

(** Lines 237-296: [ExportService._add_table_cell_elements_to_slide]. *)
Fixpoint _add_table_cell_elements_to_slide (cell_elements : list jval)
    (scale_x scale_y : Q) (b : B) : result B unit :=
  match cell_elements with
  | [] => Ok tt b
  | cell_elem :: rest =>
      bind (add_table_cell scale_x scale_y cell_elem b)
        (fun _ => _add_table_cell_elements_to_slide rest scale_x scale_y)
  end.

(** Line 347: the list comprehension that keeps the [table_cell]
    children; a child that is no dictionary has no [get]. *)
Fixpoint table_cells (children : list jval) : exn + list jval :=
  match children with
  | [] => inr []
  | child :: rest =>
      match child with
      | JDict c =>
          and_then (table_cells rest) (fun cells =>
            inr (if PyVal.eq_str (PyVal.get c "element_type" JNone) "table_cell"
                 then child :: cells else cells))
      | _ => inl (Exception "AttributeError")
      end
  end.

(** Where a step of [_add_mineru_image_to_slide] leaves the function. *)
Inductive flow :=
| Returned (b : B)
| Falls_through (b : B).

(** Lines 343-363: the cells of a table.  Whatever is raised inside the
    [try] is logged and the function goes on to the next step. *)
Definition add_cells_step (children : jval) (is_table : bool)
    (scale_x scale_y : Q) (b : B) : flow :=
  if PyVal.truthy children && is_table then
    match children with
    | JList l =>
        match table_cells l with
        | inr (cell :: cells) =>
            match _add_table_cell_elements_to_slide (cell :: cells) scale_x scale_y b with
            | Ok _ b' => Returned b'
            | Raise _ b' => Falls_through b'
            end
        | inr [] => Falls_through b
        | inl _ => Falls_through b
        end
    | _ => Falls_through b
    end
  else Falls_through b.

(** Lines 366-379: the legacy HTML table. *)
Definition add_html_table_step (html_table : jval) (is_table : bool)
    (bbox : list Z) (b : B) : flow :=
  if PyVal.truthy html_table && is_table then
    match add_table_element b html_table bbox with
    | Ok _ b' => Returned b'
    | Raise _ b' => Falls_through b'
    end
  else Falls_through b.

(** Lines 389-393: the places an image is looked for, in order. *)
Definition possible_paths (mineru_dir img_path_str : string) : list string :=
  [ path_join mineru_dir img_path_str;
    path_join (path_join mineru_dir "images") (path_name img_path_str);
    path_join mineru_dir (path_name img_path_str) ].

(** Lines 395-399: the first of them that exists. *)
Fixpoint first_existing (paths : list string) : option string :=
  match paths with
  | [] => None
  | p :: rest => if path_exists p then Some p else first_existing rest
  end.

(** Lines 382-415: the item as an image. *)
Definition add_image_step (img_path_str : jval) (mineru_dir : string)
    (bbox : list Z) (b : B) : result B unit :=
  if negb (PyVal.truthy img_path_str) then Ok tt b
  else
    match img_path_str with
    | JStr s =>
        match first_existing (possible_paths mineru_dir s) with
        | Some image_path =>
            if negb (String.eqb image_path "")
            then try_except (add_image_element b image_path bbox)
            else add_image_placeholder b bbox
        | None => add_image_placeholder b bbox
        end
    | _ => Raise (Exception "TypeError") b
    end.

(** Lines 299-415: [ExportService._add_mineru_image_to_slide]. *)
Definition _add_mineru_image_to_slide (image_item : gmap string jval)
    (mineru_dir : string) (scale_x scale_y : Q) (b : B) : result B unit :=
  match scaled_item_bbox (PyVal.get image_item "bbox" JNone) scale_x scale_y with
  | inl e => Raise e b
  | inr None => Ok tt b
  | inr (Some bbox) =>
      let element_type := PyVal.get image_item "element_type" JNone in
      let item_type :=
        if PyVal.truthy element_type then element_type
        else PyVal.get image_item "type" (JStr "image") in
      let children := PyVal.get image_item "children" (JList []) in
      match PyVal.len children with
      | inl e => Raise e b
      | inr _ =>
          let is_table := PyVal.eq_str item_type "table" in
          match add_cells_step children is_table scale_x scale_y b with
          | Returned b1 => Ok tt b1
          | Falls_through b1 =>
              match add_html_table_step (PyVal.get image_item "html_table" JNone)
                      is_table bbox b1 with
              | Returned b2 => Ok tt b2
              | Falls_through b2 =>
                  add_image_step (PyVal.get image_item "img_path" (JStr ""))
                    mineru_dir bbox b2
              end
          end
      end
  end.

End MinerU.

(** ** The image exports *)

(** What the image exports call: python-pptx ([Presentation] with its two
    dimensions, [slides.add_slide] on a layout, [shapes.add_picture] over
    the whole slide, [save] to a file or to a buffer), img2pdf ([convert]
    with the 16:9 layout), the file system, and Pillow ([Image.open],
    [convert], [save] of a first image with the others appended), on a
    world [W] with images [Img]. *)
Class ImageLibraries (W Img : Type) := {
  prs_new : W -> Z -> Z -> result W unit;
  prs_add_slide : W -> nat -> result W unit;
  prs_add_picture : W -> string -> result W unit;
  prs_save : W -> string -> result W unit;
  prs_save_bytes : W -> result W (list Z);
  img2pdf_convert : W -> list string -> result W (list Z);
  write_file : W -> string -> list Z -> result W unit;
  Image_open : W -> string -> result W Img;
  Image_mode : Img -> string;
  Image_convert : W -> Img -> string -> result W Img;
  Image_save_pdf : W -> Img -> list Img -> string -> result W unit;
  Image_save_pdf_bytes : W -> Img -> list Img -> result W (list Z)
}.

Section ImageExports.

Context {W Img : Type} `{ImageLibraries W Img}.

Variable path_exists : string -> bool.

(** [isinstance(e, cls)], for the classes an [except] clause names. *)
Variable isinstance : exn -> string -> bool.

(** Lines 50-66: a slide for each image that exists. *)
Fixpoint add_image_slides (image_paths : list string) (w : W) : result W unit :=
  match image_paths with
  | [] => Ok tt w
  | image_path :: rest =>
      if negb (path_exists image_path) then add_image_slides rest w
      else
        bind (prs_add_slide w 6) (fun _ w1 =>
        bind (prs_add_picture w1 image_path) (fun _ => add_image_slides rest))
  end.

(** Lines 30-77: [ExportService.create_pptx_from_images]; the
    dimensions are [Inches(10)] and [Inches(5.625)], in EMU. *)
Definition create_pptx_from_images (image_paths : list string)
    (output_file : option string) (w : W) : result W (option (list Z)) :=
  bind (prs_new w 9144000 5143500) (fun _ w0 =>
  bind (add_image_slides image_paths w0) (fun _ w1 =>
    if Py.truthy output_file then
      bind (prs_save w1 (default "" output_file)) (fun _ w2 => Ok None w2)
    else
      bind (prs_save_bytes w1) (fun pptx_bytes w2 => Ok (Some pptx_bytes) w2))).

(** Lines 92-97: the paths that exist, in order. *)
Fixpoint valid_paths (image_paths : list string) : list string :=
  match image_paths with
  | [] => []
  | p :: rest =>
      if path_exists p then p :: valid_paths rest else valid_paths rest
  end.

(** Lines 141-152: the images that exist, opened and made RGB. *)
Fixpoint load_images (image_paths : list string) (w : W) : result W (list Img) :=
  match image_paths with
  | [] => Ok [] w
  | image_path :: rest =>
      if negb (path_exists image_path) then load_images rest w
      else
        bind (Image_open w image_path) (fun img w1 =>
        bind (if negb (String.eqb (Image_mode img) "RGB")
              then Image_convert w1 img "RGB" else Ok img w1) (fun img' w2 =>
        bind (load_images rest w2) (fun images w3 => Ok (img' :: images) w3)))
  end.

(** Lines 124-176: [ExportService.create_pdf_from_images_pillow]. *)
Definition create_pdf_from_images_pillow (image_paths : list string)
    (output_file : option string) (w : W) : result W (option (list Z)) :=
  bind (load_images image_paths w) (fun images w1 =>
    match images with
    | [] => Raise (Exception "ValueError") w1
    | first :: others =>
        if Py.truthy output_file then
          bind (Image_save_pdf w1 first others (default "" output_file))
            (fun _ w2 => Ok None w2)
        else
          bind (Image_save_pdf_bytes w1 first others)
            (fun pdf_bytes w2 => Ok (Some pdf_bytes) w2)
    end).

(** Line 119: [except (img2pdf.ImageOpenError, ValueError, IOError)]. *)
Definition pdf_fallback_catches (e : exn) : bool :=
  isinstance e "ImageOpenError" || isinstance e "ValueError"
  || isinstance e "IOError".

(** Lines 80-121: [ExportService.create_pdf_from_images]. *)
Definition create_pdf_from_images (image_paths : list string)
    (output_file : option string) (w : W) : result W (option (list Z)) :=
  let valid := valid_paths image_paths in
  match valid with
  | [] => Raise (Exception "ValueError") w
  | _ :: _ =>
      match
        bind (img2pdf_convert w valid) (fun pdf_bytes w1 =>
          if Py.truthy output_file then
            bind (write_file w1 (default "" output_file) pdf_bytes)
              (fun _ w2 => Ok None w2)
          else Ok (Some pdf_bytes) w1)
      with
      | Ok r w' => Ok r w'
      | Raise e w' =>
          if pdf_fallback_catches e
          then create_pdf_from_images_pillow valid output_file w'
          else Raise e w'
      end
  end.

End ImageExports.

(** ** The factories *)

Module Factories.

Section Services.

(** The services the factories wire together: [FileParserService], the
    Baidu table OCR provider, and the images of the inpaint providers. *)
Variables Parser BaiduProvider Image : Type.

(** The element extractors of [.extractors]. *)
Inductive extractor :=
| BaiduOCRElementExtractor (provider : BaiduProvider)
| MinerUElementExtractor (parser_service : Parser) (upload_folder : string).

(** Lines 18-55: [ExtractorFactory.create_default_extractors];
    [create_baidu_table_ocr_provider] is what the import and the call of
    that function give: a provider, a falsy value, or an exception. *)
Definition create_default_extractors (parser_service : Parser)
    (upload_folder : string) (baidu_table_ocr_provider : option BaiduProvider)
    (create_baidu_table_ocr_provider : exn + option BaiduProvider)
  : list extractor :=
  let extractors :=
    match baidu_table_ocr_provider with
    | None =>
        match create_baidu_table_ocr_provider with
        | inr (Some baidu_provider) => [BaiduOCRElementExtractor baidu_provider]
        | inr None => []
        | inl _ => []
        end
    | Some provider => [BaiduOCRElementExtractor provider]
    end in
  extractors ++ [MinerUElementExtractor parser_service upload_folder].

(** Lines 62-84: [InpaintProviderFactory.create_default_provider]. *)
Definition create_default_provider
    (inpainting_service : option (Inpaint.DefaultInpaintProvider Image))
    (get_inpainting_service : exn + Inpaint.DefaultInpaintProvider Image)
  : option (Inpaint.DefaultInpaintProvider Image) :=
  match inpainting_service with
  | Some service => Some service
  | None =>
      match get_inpainting_service with
      | inr service => Some service
      | inl _ => None
      end
  end.

(** The [ai_service] of a generative provider: what it needs besides the
    aspect ratio and the resolution. *)
Record AIService := {
  ai_get_clean_background_prompt : exn + string;
  ai_temp_name : gset string -> exn + string;
  ai_image_save : Image -> string -> option exn;
  ai_edit_image :
    string -> string -> Inpaint.pyval Image -> Inpaint.pyval Image
    -> exn + Inpaint.edited Image
}.

(** [GenerativeEditInpaintProvider(ai_service, aspect_ratio, resolution)]. *)
Definition GenerativeEditInpaintProvider (ai_service : AIService)
    (aspect_ratio resolution : string)
  : Inpaint.GenerativeEditInpaintProvider Image :=
  {| Inpaint.self_aspect_ratio := Inpaint.PStr Image aspect_ratio;
     Inpaint.self_resolution := Inpaint.PStr Image resolution;
     Inpaint.get_clean_background_prompt := ai_get_clean_background_prompt ai_service;
     Inpaint.temp_name := ai_temp_name ai_service;
     Inpaint.image_save := ai_image_save ai_service;
     Inpaint.edit_image := ai_edit_image ai_service |}.

(** Lines 87-118:
    [InpaintProviderFactory.create_generative_edit_provider]. *)
Definition create_generative_edit_provider (ai_service : option AIService)
    (aspect_ratio resolution : string) (get_ai_service : exn + AIService)
  : option (Inpaint.GenerativeEditInpaintProvider Image) :=
  match ai_service with
  | Some service =>
      Some (GenerativeEditInpaintProvider service aspect_ratio resolution)
  | None =>
      match get_ai_service with
      | inr service =>
          Some (GenerativeEditInpaintProvider service aspect_ratio resolution)
      | inl _ => None
      end
  end.

(** Lines 121-149: [ServiceConfig]. *)
Record ServiceConfig := {
  cfg_upload_folder : string;
  cfg_extractors : list extractor;
  cfg_inpaint_provider : option (Inpaint.DefaultInpaintProvider Image);
  cfg_max_depth : Inpaint.pyval Image;
  cfg_min_image_size : Inpaint.pyval Image;
  cfg_min_image_area : Inpaint.pyval Image
}.

(** [s.lstrip(chars)]: the longest prefix made of characters of [chars]
    is dropped. *)
Fixpoint lstrip_chars (chars : list ascii) (s : string) : string :=
  match s with
  | EmptyString => EmptyString
  | String c s' =>
      if bool_decide (c ∈ chars) then lstrip_chars chars s' else s
  end.

(** [pathlib] and the place of the source file. *)
Variable is_absolute : string -> bool.
Variable path_join : string -> string -> string.
Variable project_root : string.

(** Lines 178-184: the upload folder. *)
Definition resolve_upload_folder (upload_folder : string) : string :=
  if negb (is_absolute upload_folder)
  then path_join project_root
         (lstrip_chars ["."%char; "/"%char] upload_folder)
  else upload_folder.

(** Lines 152-213: [ServiceConfig.from_defaults]; [new_parser] is the
    construction of the [FileParserService]. *)
Definition from_defaults (mineru_token mineru_api_base upload_folder : string)
    (inpainting_service : option (Inpaint.DefaultInpaintProvider Image))
    (baidu_table_ocr_provider : option BaiduProvider)
    (kwargs : gmap string (Inpaint.pyval Image))
    (new_parser : string -> string -> exn + Parser)
    (create_baidu_table_ocr_provider : exn + option BaiduProvider)
    (get_inpainting_service : exn + Inpaint.DefaultInpaintProvider Image)
  : exn + ServiceConfig :=
  let upload_path := resolve_upload_folder upload_folder in
  match new_parser mineru_token mineru_api_base with
  | inl e => inl e
  | inr parser_service =>
      let extractors :=
        create_default_extractors parser_service upload_path
          baidu_table_ocr_provider create_baidu_table_ocr_provider in
      let inpaint_provider :=
        create_default_provider inpainting_service get_inpainting_service in
      inr {| cfg_upload_folder := upload_path;
             cfg_extractors := extractors;
             cfg_inpaint_provider := inpaint_provider;
             cfg_max_depth :=
               Inpaint.kwargs_get Image kwargs "max_depth" (Inpaint.PInt Image 3);
             cfg_min_image_size :=
               Inpaint.kwargs_get Image kwargs "min_image_size" (Inpaint.PInt Image 200);
             cfg_min_image_area :=
               Inpaint.kwargs_get Image kwargs "min_image_area" (Inpaint.PInt Image 40000) |}
  end.

End Services.

End Factories.

(** ** MinerU items and editable elements side by side *)


(** The coordinates of a box as a [bbox_global] dictionary. *)
Definition bbox_dict (box : BBox) : jval :=
  JDict (<["x0" := JNum (x0 box)]> (<["y0" := JNum (y0 box)]>
        (<["x1" := JNum (x1 box)]> (<["y1" := JNum (y1 box)]> ∅)))).


(** The cell dictionary that carries the content and global box of a
    [table_cell] element. *)
Definition cell_of (e : EditableElement) : jval :=
  let cell : gmap string jval :=
    <["element_type" := JStr "table_cell"]>
      (<["bbox_global" := bbox_dict (default (bbox e) (bbox_global e))]> ∅) in
  JDict (match content e with
         | Some c => <["content" := JStr c]> cell
         | None => cell
         end).

(** Is every character of the string a code point below 128?  Among
    those, the characters [str.strip()] removes are the ones [Py.isspace]
    names, and [Py.strip] is [str.strip()]. *)
Fixpoint is_ascii (s : string) : bool :=
  match s with
  | EmptyString => true
  | String c s' => (nat_of_ascii c <? 128)%nat && is_ascii s'
  end.



Definition is_jlist (v : jval) : Prop := exists l, v = JList l.

(** A recording builder with [add_table_element] given apart. *)
Definition table_recorder (fails : log -> call -> bool)
    (tables : log -> jval -> list Z -> result log unit)
  : @TableBuilder log (recorder fails) :=
  {| add_table_element := tables |}.

(** A builder without support for HTML tables. *)
Definition no_tables : log -> jval -> list Z -> result log unit :=
  fun l _ _ => Raise (Exception "NotImplementedError") l.

(** Line 338: the type of an image item. *)
Definition item_type_of (image_item : gmap string jval) : jval :=
  if PyVal.truthy (PyVal.get image_item "element_type" JNone)
  then PyVal.get image_item "element_type" JNone
  else PyVal.get image_item "type" (JStr "image").

(** Is the string made of dots and slashes only? *)
Fixpoint dots_and_slashes (s : string) : bool :=
  match s with
  | EmptyString => true
  | String c s' =>
      bool_decide (c ∈ ["."%char; "/"%char]) && dots_and_slashes s'
  end.

(** ** Further sample inputs *)

Module MoreSamples.

(** A builder on which every call made inside a [try] raises, and no
    other. *)
Definition guarded_calls_fail : log -> call -> bool :=
  fun _ c => is_guarded_call c.

(** A page with a clean background and one heading. *)
Definition titled_page : EditableImage :=
  mkEditableImage "p1.png" (Some "p1_clean.png") [Samples.heading].

(** [pathlib] on strings. *)
Definition join (dir name : string) : string := dir +:+ "/" +:+ name.
Definition base_name (s : string) : string := s.

(** MinerU items: one without text, a cell with text only, a table whose
    child is no dictionary, and a plain image. *)
Definition empty_item : gmap string jval := ∅.

Definition bare_cell : gmap string jval := <["content" := JStr "x"]> ∅.

Definition odd_table : gmap string jval :=
  <["bbox" := JList [JNum 0; JNum 0; JNum 10; JNum 10]]>
    (<["element_type" := JStr "table"]>
       (<["children" := JList [JStr "junk"]]>
          (<["img_path" := JStr "t.png"]> ∅))).

Definition plain_image : gmap string jval :=
  <["bbox" := JList [JNum 0; JNum 0; JNum 10; JNum 10]]>
    (<["type" := JStr "image"]> (<["img_path" := JStr "a.png"]> ∅)).

(** The library calls of the image exports, recorded. *)
Inductive lib_call :=
| PrsNew (width height : Z)
| PrsAddSlide (layout : nat)
| PrsAddPicture (path : string)
| PrsSave (file : string)
| PrsSaveBytes
| Img2pdfConvert (paths : list string)
| WriteFile (file : string)
| ImageOpen (path : string)
| ImageConvert (path mode : string)
| ImageSavePdf (pages : nat) (file : string)
| ImageSavePdfBytes (pages : nat).

(** Libraries that record their calls; [fails] names the calls that
    raise and the exception they raise.  An image is its path and mode;
    files are opened in mode [P]. *)
Definition lib_record {A : Type} (fails : lib_call -> option exn) (c : lib_call)
    (a : A) (w : list lib_call) : result (list lib_call) A :=
  match fails c with
  | Some e => Raise e (w ++ [c])
  | None => Ok a (w ++ [c])
  end.

Definition recording_libraries (fails : lib_call -> option exn)
  : ImageLibraries (list lib_call) (string * string) :=
  {| prs_new w width height := lib_record fails (PrsNew width height) tt w;
     prs_add_slide w layout := lib_record fails (PrsAddSlide layout) tt w;
     prs_add_picture w p := lib_record fails (PrsAddPicture p) tt w;
     prs_save w f := lib_record fails (PrsSave f) tt w;
     prs_save_bytes w := lib_record fails PrsSaveBytes [80; 75] w;
     img2pdf_convert w paths := lib_record fails (Img2pdfConvert paths) [37; 80] w;
     write_file w f _ := lib_record fails (WriteFile f) tt w;
     Image_open w p := lib_record fails (ImageOpen p) (p, "P") w;
     Image_mode img := img.2;
     Image_convert w img mode :=
       lib_record fails (ImageConvert img.1 mode) (img.1, mode) w;
     Image_save_pdf w first others f :=
       lib_record fails (ImageSavePdf (S (length others)) f) tt w;
     Image_save_pdf_bytes w first others :=
       lib_record fails (ImageSavePdfBytes (S (length others))) [37; 80] w |}.

Definition libraries_work : lib_call -> option exn := fun _ => None.

(** img2pdf cannot open the images. *)
Definition img2pdf_broken : lib_call -> option exn :=
  fun c =>
    match c with
    | Img2pdfConvert _ => Some (Exception "ImageOpenError")
    | _ => None
    end.

(** An exception is an instance of the class it is named after. *)
Definition class_named : exn -> string -> bool :=
  fun e cls => match e with Exception msg => String.eqb msg cls end.

(** A path is absolute when it starts with a slash. *)
Definition starts_with_slash (s : string) : bool :=
  match s with
  | String "/" _ => true
  | _ => false
  end.

End MoreSamples.

(** * The composition engine on binary64 floats *)

(** [_add_editable_elements_to_slide] once more, on the numbers Python
    computes with.  Coordinates and scale factors are binary64 floats;
    products, differences and quotients are the rounded ones of IEEE 754;
    [int()] converts the rounded product and raises on NaN and on the
    infinities.  The builder, the results and the strings are those of the
    engine above. *)
Module Float64.

(** [int(x)] on a float: a finite float that is not zero is
    [(-1)^s * m * 2^e], and its integer part has the bits of [m] shifted by
    [e]; [int(nan)] raises [ValueError], [int(inf)] and [int(-inf)] raise
    [OverflowError]. *)
Definition int (x : float) : exn + Z :=
  match Prim2SF x with
  | S754_zero _ => inr 0
  | S754_finite s m e =>
      let magnitude := Z.shiftl (Z.pos m) e in
      inr (if s then - magnitude else magnitude)
  | S754_infinity _ =>
      inl (Exception "OverflowError: cannot convert float infinity to integer")
  | S754_nan =>
      inl (Exception "ValueError: cannot convert float NaN to integer")
  end.

(** Modelled from the spec: the class [BBox] of
    [services/image_editability], imported but not defined in the files at
    hand; four float coordinates and the derived
    [area = (x1-x0)*(y1-y0)]. *)
Record BBox := mkBBox { x0 : float; y0 : float; x1 : float; y1 : float }.

Definition area (b : BBox) : float := ((x1 b - x0 b) * (y1 b - y0 b))%float.

(** Modelled from the spec: the class [EditableElement], with the
    attributes [_add_editable_elements_to_slide] reads.  [bbox_global] is
    [None] when the attribute is missing or falsy. *)
#[warnings="-register-all"]
Inductive EditableElement := mkElement {
  element_id : string;
  element_type : string;
  content : option string;
  bbox : BBox;
  bbox_global : option BBox;
  image_path : option string;
  inpainted_background_path : option string;
  children : list EditableElement
}.

Section Composition.

Context {B : Type} `{PPTXBuilder B}.

(** [os.path.exists], constant while a page is composed. *)
Variable path_exists : string -> bool.

(** Lines 589-592: the frame an element is placed in. *)
Definition select_bbox (depth : nat) (elem : EditableElement) : BBox :=
  if (depth =? 0)%nat then bbox elem
  else match bbox_global elem with
       | Some g => g
       | None => bbox elem
       end.

(** Lines 595-600: [bbox_list]; the four conversions run in order, and
    the first that raises leaves the function, as the list is built outside
    any [try]. *)
Definition bbox_list (b : BBox) (scale_x scale_y : float) : exn + list Z :=
  and_then (int (x0 b * scale_x)) (fun a =>
  and_then (int (y0 b * scale_y)) (fun b' =>
  and_then (int (x1 b * scale_x)) (fun c =>
  and_then (int (y1 b * scale_y)) (fun d =>
    inr [a; b'; c; d])))).

(** Lines 694-697. *)
Definition child_bbox (child : EditableElement) : BBox :=
  match bbox_global child with
  | Some g => g
  | None => bbox child
  end.

(** Lines 691-705: the loop over the children, left at the first child
    whose coverage is above the threshold.  The quotient of line 700 is
    taken for a positive [parent_area] only and raises nothing. *)
Fixpoint has_dominant_child (cs : list EditableElement) (parent_area : float)
  : bool :=
  match cs with
  | [] => false
  | child :: cs' =>
      let child_area := area (child_bbox child) in
      let coverage_ratio := Binary64.coverage_ratio child_area parent_area in
      if PrimFloat.ltb Binary64.max_child_coverage_ratio coverage_ratio then true
      else has_dominant_child cs' parent_area
  end.

(** Lines 685-707: [should_use_recursive_render] for an element placed in
    frame [b]. *)
Definition should_use_recursive_render (elem : EditableElement) (b : BBox)
  : bool :=
  match children elem with
  | [] => false
  | _ :: _ =>
      if Py.truthy (inpainted_background_path elem) then
        let parent_area := ((x1 b - x0 b) * (y1 b - y0 b))%float in
        negb (has_dominant_child (children elem) parent_area)
      else false
  end.

(** The statements of a [for] loop over elements, run in order; an
    exception leaves the loop. *)
Definition for_each (body : EditableElement -> B -> result B unit)
  : list EditableElement -> B -> result B unit :=
  fix loop (l : list EditableElement) (b : B) : result B unit :=
    match l with
    | [] => Ok tt b
    | e :: l' => bind (body e b) (fun _ => loop l')
    end.

(** Lines 670-681 and 732-743: the flattened rendering of an element. *)
Definition add_flattened (elem : EditableElement) (bl : list Z) (b : B)
  : result B unit :=
  match image_path elem with
  | Some p =>
      if negb (String.eqb p "") && path_exists p
      then try_except (add_image_element b p bl)
      else add_image_placeholder b bl
  | None => add_image_placeholder b bl
  end.

(** Lines 648-656 and 714-718: the inpainted background, added when its
    file exists. *)
Definition add_background (elem : EditableElement) (bl : list Z) (b : B)
  : result B unit :=
  match inpainted_background_path elem with
  | Some p =>
      if path_exists p then try_except (add_image_element b p bl)
      else Ok tt b
  | None => Ok tt b
  end.

(** Lines 607-621 and 625-640: a text box for non-blank content. *)
Definition add_text (elem : EditableElement) (bl : list Z)
    (text_level align : option string) (b : B) : result B unit :=
  match content elem with
  | Some c =>
      if negb (String.eqb c "") then
        let text := Py.strip c in
        if negb (String.eqb text "")
        then try_except (add_text_element b text bl text_level align)
        else Ok tt b
      else Ok tt b
  | None => Ok tt b
  end.

(** Lines 584-747: the body of the loop of
    [_add_editable_elements_to_slide], for one element.  An exception of
    [bbox_list] leaves the function before any builder call. *)
Fixpoint add_editable_element (scale_x scale_y : float) (depth : nat)
    (elem : EditableElement) (b : B) {struct elem} : result B unit :=
  let elem_type := element_type elem in
  let frame := select_bbox depth elem in
  let recurse :=
    for_each (add_editable_element scale_x scale_y (S depth)) (children elem) in
  match bbox_list frame scale_x scale_y with
  | inl e => Raise e b
  | inr bl =>
      if String.eqb elem_type "text" || String.eqb elem_type "title" then
        let level := if String.eqb elem_type "title" then "title" else "default" in
        add_text elem bl (Some level) None b
      else if String.eqb elem_type "table_cell" then
        add_text elem bl None (Some "center") b
      else if String.eqb elem_type "table" then
        match children elem with
        | _ :: _ =>
            if Py.truthy (inpainted_background_path elem)
            then bind (add_background elem bl b) (fun _ => recurse)
            else add_flattened elem bl b
        | [] => add_flattened elem bl b
        end
      else if String.eqb elem_type "image" || String.eqb elem_type "figure"
              || String.eqb elem_type "chart" then
        if should_use_recursive_render elem frame
        then bind (add_background elem bl b) (fun _ => recurse)
        else add_flattened elem bl b
      else Ok tt b
  end.

(** [ExportService._add_editable_elements_to_slide]. *)
Definition _add_editable_elements_to_slide (elements : list EditableElement)
    (scale_x scale_y : float) (depth : nat) (b : B) : result B unit :=
  for_each (add_editable_element scale_x scale_y depth) elements b.

End Composition.

(** ** Definitions used in the statements *)

(** The rational a finite float stands for; NaN and the infinities stand
    for none. *)
Definition value (x : float) : option Q :=
  match Prim2SF x with
  | S754_zero _ => Some 0%Q
  | S754_finite s m e =>
      Some (inject_Z (if s then Z.neg m else Z.pos m) * 2 ^ e)%Q
  | S754_infinity _ | S754_nan => None
  end.

(** The box a builder call carries. *)
Definition call_bbox (c : call) : option (list Z) :=
  match c with
  | AddText _ bl _ _ | AddImage _ bl | AddPlaceholder bl => Some bl
  | _ => None
  end.

(** At most one entry of a log, carrying the box [bl]. *)
Definition carries (bl : list Z) (own : log) : Prop :=
  (length own <= 1)%nat
  /\ Forall (fun entry : call * bool => call_bbox entry.1 = Some bl) own.

(** The frame the specification names for an element composed at a depth:
    the local [bbox] at depth 0; above, [bbox_global] when there is one
    and the local [bbox] when there is none. *)
Definition claimed_frame (depth : nat) (e : EditableElement) (f : BBox) : Prop :=
  (depth = 0%nat /\ f = bbox e)
  \/ (depth <> 0%nat /\ bbox_global e = Some f)
  \/ (depth <> 0%nat /\ bbox_global e = None /\ f = bbox e).

(** What an element holds besides its two boxes. *)
Definition without_boxes (e : EditableElement) :=
  (element_id e, element_type e, content e, image_path e,
   inpainted_background_path e, children e).

(** The dominant-child rule in the words of the specification: recursion
    is enabled when there are children, a background path is set, and no
    child exceeds its share, 0.85 times the parent's area. *)
Definition spec_recursion_enabled (exceeds : float -> EditableElement -> bool)
    (elem : EditableElement) (frame : BBox) : bool :=
  negb (bool_decide (children elem = []))
  && Py.truthy (inpainted_background_path elem)
  && forallb (fun child => negb (exceeds (area frame) child)) (children elem).

(** The share with the product rounded to binary64, as Python computes
    [0.85 * parent_area]. *)
Definition exceeds_share (parent_area : float) (child : EditableElement) : bool :=
  PrimFloat.ltb (Binary64.max_child_coverage_ratio * parent_area)
    (area (child_bbox child)).

(** The share with the product taken exactly, 17/20 of the rational the
    parent's area stands for. *)
Definition exceeds_exact_share (parent_area : float) (child : EditableElement)
  : bool :=
  match value (area (child_bbox child)), value parent_area with
  | Some c, Some p => Py.gt c (0.85 * p)
  | _, _ => false
  end.

(** The rule of the source: a child is dominant when the parent's area is
    positive and the quotient of the two areas is above 0.85. *)
Definition is_dominant_child (parent_area : float) (child : EditableElement)
  : bool :=
  PrimFloat.ltb 0 parent_area
  && PrimFloat.ltb Binary64.max_child_coverage_ratio
       (area (child_bbox child) / parent_area).

Definition guarded_recursion_enabled (elem : EditableElement) (frame : BBox)
  : bool :=
  negb (bool_decide (children elem = []))
  && Py.truthy (inpainted_background_path elem)
  && forallb (fun child => negb (is_dominant_child (area frame) child))
       (children elem).

(** Is the element of one of the types of the image branch? *)
Definition is_image_type (elem : EditableElement) : bool :=
  String.eqb (element_type elem) "image"
  || String.eqb (element_type elem) "figure"
  || String.eqb (element_type elem) "chart".

(** ** Sample inputs *)

Definition box (a b c d : float) : BBox := mkBBox a b c d.

Definition text_elem (id s : string) (l : BBox) (g : option BBox)
  : EditableElement :=
  mkElement id "text" (Some s) l g None None [].

(** A picture of area 1000 with one child of the given width and height
    10. *)
Definition picture (child_width : float) : EditableElement :=
  mkElement "pic" "image" None (box 0 0 100 10) None
    (Some "pic.png") (Some "pic_bg.png")
    [text_elem "label" "label" (box 0 0 1 1) (Some (box 0 0 child_width 10))].

(** The doubles that the literals [85.1] and [84.9] denote. *)
Definition width_85_1 : float := 0x1.5466666666666p+6%float.
Definition width_84_9 : float := 0x1.539999999999ap+6%float.

(** A picture whose own box has width zero. *)
Definition flat_picture : EditableElement :=
  mkElement "flat" "figure" None (box 5 0 5 10) None
    (Some "flat.png") (Some "flat_bg.png")
    [text_elem "inner" "inner" (box 0 0 1 1) (Some (box 0 0 10 10))].

(** A picture of height 1 and the given width, with one child of height
    1 and the given width. *)
Definition strip_picture (parent_width child_width : float) : EditableElement :=
  mkElement "strip" "image" None (box 0 0 parent_width 1) None
    (Some "strip.png") (Some "strip_bg.png")
    [text_elem "label" "label" (box 0 0 1 1) (Some (box 0 0 child_width 1))].

(** The doubles that the literals [69.7] and [11.9] denote. *)
Definition width_69_7 : float := 0x1.16ccccccccccdp+6%float.
Definition width_11_9 : float := 0x1.7cccccccccccdp+3%float.

(** A heading whose left edge is at -0.5. *)
Definition heading : EditableElement :=
  mkElement "h" "title" (Some " Results ") (box (-0.5) 0 300 40)
    (Some (box 7 7 8 8)) None None [].

(** The doubles that the literals [0.3333333333333333] and [2.3]
    denote. *)
Definition third : float := 0x1.5555555555555p-2%float.
Definition two_point_three : float := 0x1.2666666666666p+1%float.

End Float64.

(** * Properties *)

(** ** Numbers *)


Lemma gt_spec (x y : Q) : Py.gt x y = true <-> (y < x)%Q.
Proof.
  unfold Py.gt. rewrite negb_true_iff, <- not_true_iff_false, Qle_bool_iff.
  split; [apply Qnot_le_lt | apply Qlt_not_le].
Qed.


(** Above the threshold as a quotient, or as a product: the same for a
    parent of positive area. *)
Lemma gt_div_mul (c p t : Q) :
  (0 < p)%Q -> Py.gt (c / p) t = Py.gt c (t * p).
Proof.
  intros Hp. apply eq_true_iff_eq. rewrite !gt_spec. split; intros Hlt.
  - apply (Qmult_lt_compat_r _ _ p) in Hlt; [| exact Hp].
    assert (Hcp : (c / p * p == c)%Q).
    { field. intros Hz. rewrite Hz in Hp. discriminate. }
    rewrite Hcp in Hlt. exact Hlt.
  - apply Qlt_shift_div_l; assumption.
Qed.

(** ** The composition engine *)

(** Induction on an element tree, with the property known of every
    child. *)
Fixpoint EditableElement_tree_ind (P : EditableElement -> Prop)
    (step : forall id ty c l g ip bg cs,
        Forall P cs -> P (mkElement id ty c l g ip bg cs))
    (e : EditableElement) {struct e} : P e :=
  match e with
  | mkElement id ty c l g ip bg cs =>
      step id ty c l g ip bg cs
        ((fix children_ok (l : list EditableElement) : Forall P l :=
            match l with
            | [] => List.Forall_nil P
            | x :: l' =>
                List.Forall_cons P x l' (EditableElement_tree_ind P step x) (children_ok l')
            end) cs)
  end.

Lemma has_dominant_child_spec (cs : list EditableElement) (p : Q) :
  has_dominant_child cs p
  = Some (negb (forallb (fun child => negb (Py.gt p 0 && exceeds_share p child)) cs)).
Proof.
  induction cs as [| child cs IH]; simpl; [reflexivity |].
  unfold coverage_ratio, exceeds_share.
  destruct (Py.gt p 0) eqn:Hp; simpl.
  - apply gt_spec in Hp. unfold Py.truediv.
    destruct (Qeq_bool p 0) eqn:Hz.
    + apply Qeq_bool_iff in Hz. rewrite Hz in Hp. discriminate.
    + unfold max_child_coverage_ratio. rewrite (gt_div_mul _ _ _ Hp).
      destruct (Py.gt (area (child_bbox child)) (0.85 * p)); simpl;
        [reflexivity | exact IH].
  - change (Py.gt 0 max_child_coverage_ratio) with false. exact IH.
Qed.

Lemma should_use_recursive_render_spec (elem : EditableElement) (frame : BBox) :
  should_use_recursive_render elem frame
  = Some (guarded_recursion_enabled elem frame).
Proof.
  unfold should_use_recursive_render, guarded_recursion_enabled.
  destruct (children elem) as [| c cs] eqn:Hcs; [reflexivity |].
  change (bool_decide (c :: cs = [])) with false.
  destruct (Py.truthy (inpainted_background_path elem)); [| reflexivity].
  rewrite has_dominant_child_spec. simpl. rewrite negb_involutive. reflexivity.
Qed.

Section CompositionFacts.

Context {B : Type} `{PPTXBuilder B}.
Variable path_exists : string -> bool.
Variables scale_x scale_y : Q.

Abbreviation add_element := (add_editable_element path_exists scale_x scale_y).
Abbreviation placed depth elem :=
  (bbox_list (select_bbox depth elem) scale_x scale_y).
Abbreviation background_then_children depth elem b :=
  (bind (add_background path_exists elem (placed depth elem) b)
     (fun _ => for_each (add_element (S depth)) (children elem))).

Lemma for_each_app (body : EditableElement -> B -> result B unit) l1 l2 b :
  for_each body (l1 ++ l2) b
  = bind (for_each body l1 b) (fun _ => for_each body l2).
Proof.
  revert b. induction l1 as [| e l1 IH]; intros b; simpl; [reflexivity |].
  destruct (body e b); simpl; auto.
Qed.

(** The image branch of the dispatch. *)
Lemma image_dispatch depth elem b :
  is_image_type elem = true ->
  add_element depth elem b
  = if guarded_recursion_enabled elem (select_bbox depth elem)
    then background_then_children depth elem b
    else add_flattened path_exists elem (placed depth elem) b.
Proof.
  intros Hty.
  pose proof (should_use_recursive_render_spec elem (select_bbox depth elem)) as Hs.
  destruct elem as [id ty c l g ip bg cs]. unfold is_image_type in Hty.
  cbn [element_type] in Hty.
  assert (Hcases : ty = "image" \/ ty = "figure" \/ ty = "chart").
  { apply orb_true_iff in Hty as [Hty | Hty];
      [apply orb_true_iff in Hty as [Hty | Hty] |];
      apply String.eqb_eq in Hty; auto. }
  destruct Hcases as [-> | [-> | ->]]; cbn - [should_use_recursive_render select_bbox bbox_list];
    rewrite Hs; reflexivity.
Qed.

(** The table branch of the dispatch. *)
Lemma table_dispatch depth elem b :
  element_type elem = "table" ->
  add_element depth elem b
  = if negb (bool_decide (children elem = []))
       && Py.truthy (inpainted_background_path elem)
    then background_then_children depth elem b
    else add_flattened path_exists elem (placed depth elem) b.
Proof.
  destruct elem as [id ty c l g ip bg cs]. cbn [element_type]. intros ->.
  cbn - [select_bbox bbox_list Py.truthy]. destruct cs; reflexivity.
Qed.



End CompositionFacts.

(** * Properties of the engine on binary64 floats *)

(** ** Numbers *)

Section Float64Numbers.

Import Float64.

(** The integer part of [m * 2^e] is [m] shifted by [e]. *)
Lemma floor_shift (m : positive) (e : Z) :
  Qfloor (inject_Z (Z.pos m) * 2 ^ e) = Z.shiftl (Z.pos m) e.
Proof.
  destruct (Z.le_gt_cases 0 e) as [He | He].
  - rewrite Z.shiftl_mul_pow2 by exact He.
    rewrite <- (Qfloor_Z (Z.pos m * 2 ^ e)).
    apply Qfloor_comp.
    rewrite inject_Z_mult, (Zpower_Qpower 2 e He). reflexivity.
  - destruct e as [| k | k]; try lia.
    change (Z.shiftl (Z.pos m) (Z.neg k)) with (Z.shiftr (Z.pos m) (Z.pos k)).
    rewrite Z.shiftr_div_pow2 by lia.
    rewrite <- Pos2Z.inj_pow.
    change (Z.pos m / Z.pos (2 ^ k)) with (Qfloor (Z.pos m # 2 ^ k)).
    apply Qfloor_comp.
    change (Z.neg k) with (- Z.pos k).
    rewrite Qpower_opp, <- (Zpower_Qpower 2 (Z.pos k)) by lia.
    rewrite <- Pos2Z.inj_pow.
    rewrite (Qmake_Qdiv (Z.pos m) (2 ^ k)). reflexivity.
Qed.

(** [int()] of a finite float is its value rounded toward zero; [int()]
    of any other float raises. *)
Lemma int_value (x : float) :
  match value x with
  | Some q => int x = inr (round_toward_zero q)
  | None => exists e, int x = inl e
  end.
Proof.
  unfold value, int. destruct (Prim2SF x) as [s | s | | s m e].
  - reflexivity.
  - eexists; reflexivity.
  - eexists; reflexivity.
  - cbv zeta. f_equal. unfold round_toward_zero.
    assert (Hpow : (0 < 2 ^ e)%Q) by (apply Qpower_0_lt; reflexivity).
    destruct s.
    + assert (Hneg : (inject_Z (Z.neg m) * 2 ^ e < 0)%Q).
      { assert (Hz : (0 * 2 ^ e == 0)%Q) by ring.
        rewrite <- Hz. apply Qmult_lt_compat_r; [exact Hpow | reflexivity]. }
      destruct (Qle_bool 0 (inject_Z (Z.neg m) * 2 ^ e)) eqn:Hle.
      * apply Qle_bool_iff in Hle. exfalso. exact (Qlt_not_le _ _ Hneg Hle).
      * unfold Qceiling. f_equal. rewrite <- floor_shift. apply Qfloor_comp.
        change (Z.neg m) with (- Z.pos m). rewrite inject_Z_opp. ring.
    + assert (Hnn : (0 <= inject_Z (Z.pos m) * 2 ^ e)%Q).
      { apply Qmult_le_0_compat; [discriminate | apply Qlt_le_weak, Hpow]. }
      apply Qle_bool_iff in Hnn. rewrite Hnn. symmetry. apply floor_shift.
Qed.

End Float64Numbers.

(** ** The dispatch *)

Section Float64Engine.

Import Float64.

Context {B : Type} `{PPTXBuilder B}.
Variable path_exists : string -> bool.
Variables scale_x scale_y : float.

Abbreviation float_element := (add_editable_element path_exists scale_x scale_y).
Abbreviation float_children depth elem :=
  (for_each (float_element (S depth)) (children elem)).

Lemma float_engine_unfold depth elem b :
  float_element depth elem b
  = match bbox_list (select_bbox depth elem) scale_x scale_y with
    | inl e => Raise e b
    | inr bl =>
        if String.eqb (element_type elem) "text"
           || String.eqb (element_type elem) "title"
        then
          add_text elem bl
            (Some (if String.eqb (element_type elem) "title"
                   then "title" else "default"))
            None b
        else if String.eqb (element_type elem) "table_cell" then
          add_text elem bl None (Some "center") b
        else if String.eqb (element_type elem) "table" then
          if negb (bool_decide (children elem = []))
             && Py.truthy (inpainted_background_path elem)
          then bind (add_background path_exists elem bl b)
                 (fun _ => float_children depth elem)
          else add_flattened path_exists elem bl b
        else if is_image_type elem then
          if should_use_recursive_render elem (select_bbox depth elem)
          then bind (add_background path_exists elem bl b)
                 (fun _ => float_children depth elem)
          else add_flattened path_exists elem bl b
        else Ok tt b
    end.
Proof.
  destruct elem as [id ty c l g ip bg cs]. destruct cs; reflexivity.
Qed.

Lemma float_has_dominant_child_spec (cs : list EditableElement) (p : float) :
  has_dominant_child cs p
  = negb (forallb (fun child => negb (is_dominant_child p child)) cs).
Proof.
  induction cs as [| child cs IH]; [reflexivity |].
  cbn [has_dominant_child forallb]. unfold is_dominant_child at 1.
  unfold Binary64.coverage_ratio.
  destruct (PrimFloat.ltb 0 p); cbn [andb negb].
  - destruct (PrimFloat.ltb Binary64.max_child_coverage_ratio
                (area (child_bbox child) / p)); [reflexivity | exact IH].
  - change (PrimFloat.ltb Binary64.max_child_coverage_ratio 0) with false.
    exact IH.
Qed.

Lemma float_should_use_recursive_render_spec (elem : EditableElement)
    (frame : BBox) :
  should_use_recursive_render elem frame = guarded_recursion_enabled elem frame.
Proof.
  unfold should_use_recursive_render, guarded_recursion_enabled.
  destruct (children elem) as [| c cs] eqn:Hcs; [reflexivity |].
  change (bool_decide (c :: cs = [])) with false.
  destruct (Py.truthy (inpainted_background_path elem)); [| reflexivity].
  rewrite float_has_dominant_child_spec, negb_involutive. reflexivity.
Qed.

(** C3, amended: for an [image], [figure] or [chart] element whose box
    scales, recursion into the children is enabled exactly when there are
    children, an inpainted background path is set and no child is dominant:
    a child (by its [bbox_global] when it has one, by its [bbox] otherwise)
    is dominant when the parent's area is positive and the binary64
    quotient of the child's area by the parent's area is above the double
    0.85.  A parent of area 1000 with a child of area 851 is flattened,
    with a child of area 849 it is recursed into. *)
Theorem C3_dominant_child (depth : nat) (elem : EditableElement)
    (bl : list Z) (b : B) :
  is_image_type elem = true ->
  bbox_list (select_bbox depth elem) scale_x scale_y = inr bl ->
  should_use_recursive_render elem (select_bbox depth elem)
  = guarded_recursion_enabled elem (select_bbox depth elem)
  /\ float_element depth elem b
     = (if guarded_recursion_enabled elem (select_bbox depth elem)
        then bind (add_background path_exists elem bl b)
               (fun _ => float_children depth elem)
        else add_flattened path_exists elem bl b)
  /\ area (select_bbox 0 (picture width_85_1)) = 1000%float
  /\ area (child_bbox (text_elem "label" "label" (box 0 0 1 1)
                         (Some (box 0 0 width_85_1 10)))) = 851%float
  /\ area (child_bbox (text_elem "label" "label" (box 0 0 1 1)
                         (Some (box 0 0 width_84_9 10)))) = 849%float
  /\ should_use_recursive_render (picture width_85_1)
       (select_bbox 0 (picture width_85_1)) = false
  /\ should_use_recursive_render (picture width_84_9)
       (select_bbox 0 (picture width_84_9)) = true.
Proof.
  intros Hty Hbl.
  split; [apply float_should_use_recursive_render_spec |].
  split; [| repeat split; reflexivity].
  rewrite float_engine_unfold, Hbl, Hty.
  rewrite <- float_should_use_recursive_render_spec.
  unfold is_image_type in Hty.
  destruct (String.eqb (element_type elem) "text") eqn:Ht;
    [apply String.eqb_eq in Ht; rewrite Ht in Hty; discriminate |].
  destruct (String.eqb (element_type elem) "title") eqn:Ht2;
    [apply String.eqb_eq in Ht2; rewrite Ht2 in Hty; discriminate |].
  destruct (String.eqb (element_type elem) "table_cell") eqn:Ht3;
    [apply String.eqb_eq in Ht3; rewrite Ht3 in Hty; discriminate |].
  destruct (String.eqb (element_type elem) "table") eqn:Ht4;
    [apply String.eqb_eq in Ht4; rewrite Ht4 in Hty; discriminate |].
  reflexivity.
Qed.

(** A product that does not convert leaves the engine before any builder
    call. *)
Lemma float_engine_raises depth elem b e :
  bbox_list (select_bbox depth elem) scale_x scale_y = inl e ->
  float_element depth elem b = Raise e b.
Proof. intros Hbl. rewrite float_engine_unfold, Hbl. reflexivity. Qed.

(** The engine reads the two boxes of an element through the selected
    frame only. *)
Lemma float_engine_frame depth e e' b :
  without_boxes e' = without_boxes e ->
  select_bbox depth e' = select_bbox depth e ->
  float_element depth e' b = float_element depth e b.
Proof.
  intros Hsame Hsel. rewrite !float_engine_unfold, Hsel.
  unfold without_boxes in Hsame.
  injection Hsame as Hid Hty Hc Hip Hbg Hcs.
  unfold is_image_type, add_text, add_background, add_flattened,
    should_use_recursive_render.
  rewrite Hty, Hc, Hip, Hbg, Hcs. reflexivity.
Qed.

End Float64Engine.

(** ** Frames and boxes, on the recording builder *)

Section Float64Recorded.

Import Float64.

Variable path_exists : string -> bool.
Variables scale_x scale_y : float.
Variable fails : log -> call -> bool.

Abbreviation recorded_float depth :=
  (@add_editable_element log (recorder fails) path_exists scale_x scale_y depth).
Abbreviation recorded_floats elements depth :=
  (@_add_editable_elements_to_slide log (recorder fails) path_exists elements
     scale_x scale_y depth).

Lemma carries_nothing (bl : list Z) : carries bl ([] : log).
Proof. split; [simpl; lia | constructor]. Qed.

Lemma carries_one (bl : list Z) (c : call) (flag : bool) :
  call_bbox c = Some bl -> carries bl [(c, flag)].
Proof. intros Hc. split; [simpl; lia | repeat constructor; exact Hc]. Qed.

Lemma caught_call (c : call) (l : log) :
  try_except (record fails c l) = Ok tt (l ++ [(c, fails l c)]).
Proof. unfold record. destruct (fails l c); reflexivity. Qed.

Lemma own_text elem bl level align (l : log) :
  exists own, carries bl own
    /\ @add_text log (recorder fails) elem bl level align l = Ok tt (l ++ own).
Proof.
  unfold add_text. destruct (content elem) as [c |].
  - destruct (negb (String.eqb c "")).
    + destruct (negb (String.eqb (Py.strip c) "")).
      * eexists. split; [| apply caught_call]. apply carries_one. reflexivity.
      * exists []. split; [apply carries_nothing | rewrite app_nil_r; reflexivity].
    + exists []. split; [apply carries_nothing | rewrite app_nil_r; reflexivity].
  - exists []. split; [apply carries_nothing | rewrite app_nil_r; reflexivity].
Qed.

Lemma own_background elem bl (l : log) :
  exists own, carries bl own
    /\ @add_background log (recorder fails) path_exists elem bl l
       = Ok tt (l ++ own).
Proof.
  unfold add_background. destruct (inpainted_background_path elem) as [p |].
  - destruct (path_exists p).
    + eexists. split; [| apply caught_call]. apply carries_one. reflexivity.
    + exists []. split; [apply carries_nothing | rewrite app_nil_r; reflexivity].
  - exists []. split; [apply carries_nothing | rewrite app_nil_r; reflexivity].
Qed.

Lemma own_placeholder bl (l : log) :
  exists own, carries bl own
    /\ state_of (record fails (AddPlaceholder bl) l) = l ++ own.
Proof.
  exists [(AddPlaceholder bl, fails l (AddPlaceholder bl))].
  split; [apply carries_one; reflexivity |].
  unfold record. destruct (fails l (AddPlaceholder bl)); reflexivity.
Qed.

Lemma own_flattened elem bl (l : log) :
  exists own, carries bl own
    /\ state_of (@add_flattened log (recorder fails) path_exists elem bl l)
       = l ++ own.
Proof.
  unfold add_flattened. destruct (image_path elem) as [p |].
  - destruct (negb (String.eqb p "") && path_exists p).
    + eexists. split; [| cbn [add_image_element recorder];
                          rewrite caught_call; reflexivity].
      apply carries_one. reflexivity.
    + apply own_placeholder.
  - apply own_placeholder.
Qed.

(** What composing one element adds to the calls made: at most one call
    of its own, carrying the scaled box of the selected frame, and then
    nothing, or what composing its children one level down adds. *)
Lemma own_call (depth : nat) (e : EditableElement) (bl : list Z) (l : log) :
  bbox_list (select_bbox depth e) scale_x scale_y = inr bl ->
  exists own, carries bl own
    /\ (state_of (recorded_float depth e l) = l ++ own
        \/ state_of (recorded_float depth e l)
           = state_of (recorded_floats (children e) (S depth) (l ++ own))).
Proof.
  intros Hbl. rewrite float_engine_unfold, Hbl.
  assert (Hbg : exists own, carries bl own
            /\ (state_of (bind (@add_background log (recorder fails) path_exists e bl l)
                            (fun _ => for_each (recorded_float (S depth)) (children e)))
                = l ++ own
                \/ state_of (bind (@add_background log (recorder fails) path_exists e bl l)
                               (fun _ => for_each (recorded_float (S depth)) (children e)))
                   = state_of (recorded_floats (children e) (S depth) (l ++ own)))).
  { destruct (own_background e bl l) as (own & Hown & Heq).
    exists own. split; [exact Hown |]. right. rewrite Heq. reflexivity. }
  assert (Hflat : exists own, carries bl own
            /\ (state_of (@add_flattened log (recorder fails) path_exists e bl l)
                = l ++ own
                \/ state_of (@add_flattened log (recorder fails) path_exists e bl l)
                   = state_of (recorded_floats (children e) (S depth) (l ++ own)))).
  { destruct (own_flattened e bl l) as (own & Hown & Heq).
    exists own. split; [exact Hown |]. left. exact Heq. }
  assert (Htext : forall level align, exists own, carries bl own
            /\ (state_of (@add_text log (recorder fails) e bl level align l)
                = l ++ own
                \/ state_of (@add_text log (recorder fails) e bl level align l)
                   = state_of (recorded_floats (children e) (S depth) (l ++ own)))).
  { intros level align. destruct (own_text e bl level align l) as (own & Hown & Heq).
    exists own. split; [exact Hown |]. left. rewrite Heq. reflexivity. }
  destruct (String.eqb (element_type e) "text" || String.eqb (element_type e) "title");
    [apply Htext |].
  destruct (String.eqb (element_type e) "table_cell"); [apply Htext |].
  destruct (String.eqb (element_type e) "table").
  { destruct (negb (bool_decide (children e = []))
              && Py.truthy (inpainted_background_path e)); assumption. }
  destruct (is_image_type e).
  { destruct (should_use_recursive_render e (select_bbox depth e)); assumption. }
  exists []. split; [apply carries_nothing |]. left. rewrite app_nil_r. reflexivity.
Qed.

Lemma claimed_frame_selected (depth : nat) (e : EditableElement) (f : BBox) :
  claimed_frame depth e f -> select_bbox depth e = f.
Proof.
  unfold select_bbox.
  intros [[-> ->] | [[Hd Hg] | (Hd & Hg & ->)]]; [reflexivity | |];
    (destruct depth; [contradiction |]); rewrite Hg; reflexivity.
Qed.

End Float64Recorded.

(** C1: an element composed at depth 0 is placed by its local [bbox],
    whatever its [bbox_global] is; an element composed at a depth above 0
    is placed by its [bbox_global] when it has one, whatever its [bbox] is,
    and by its [bbox] when it has none.  Placed by a frame: every builder
    call made for the element itself carries the four coordinates of that
    frame, each multiplied by the scale of its axis and converted by
    [int()], and two elements that differ in their boxes only and have the
    same frame are composed alike. *)
Theorem C1_frame_placed (path_exists : string -> bool) (scale_x scale_y : float)
    (depth : nat) (e : Float64.EditableElement) (f : Float64.BBox) :
  Float64.claimed_frame depth e f ->
  (forall (fails : log -> call -> bool) (l : log) (a b c d : Z),
      Float64.int (Float64.x0 f * scale_x) = inr a ->
      Float64.int (Float64.y0 f * scale_y) = inr b ->
      Float64.int (Float64.x1 f * scale_x) = inr c ->
      Float64.int (Float64.y1 f * scale_y) = inr d ->
      exists own : log,
        (length own <= 1)%nat
        /\ Forall (fun entry : call * bool =>
                     Float64.call_bbox entry.1 = Some [a; b; c; d]) own
        /\ (state_of (@Float64.add_editable_element log (recorder fails)
                        path_exists scale_x scale_y depth e l)
            = l ++ own
            \/ state_of (@Float64.add_editable_element log (recorder fails)
                           path_exists scale_x scale_y depth e l)
               = state_of (@Float64._add_editable_elements_to_slide log
                             (recorder fails) path_exists (Float64.children e)
                             scale_x scale_y (S depth) (l ++ own))))
  /\ (forall (B : Type) (builder : PPTXBuilder B) (e' : Float64.EditableElement)
        (b : B),
        Float64.without_boxes e' = Float64.without_boxes e ->
        Float64.claimed_frame depth e' f ->
        @Float64.add_editable_element B builder path_exists scale_x scale_y
          depth e' b
        = @Float64.add_editable_element B builder path_exists scale_x scale_y
            depth e b).
Proof.
  intros Hf. apply claimed_frame_selected in Hf as Hsel. split.
  - intros fails l a b c d Ha Hb Hc Hd.
    destruct (own_call path_exists scale_x scale_y fails depth e [a; b; c; d] l)
      as (own & [Hlen Hall] & Hstate).
    { rewrite Hsel. unfold Float64.bbox_list. rewrite Ha, Hb, Hc, Hd. reflexivity. }
    exists own. auto.
  - intros B builder e' b Hsame Hf'. apply claimed_frame_selected in Hf'.
    apply float_engine_frame; [exact Hsame | congruence].
Qed.

(** C5, amended: each of the four placed coordinates is [int()] of the
    binary64 product of the coordinate and the scale of its axis, computed
    per coordinate: where the four products are finite, the value of each
    rounded toward zero, its floor when the product is not negative and its
    ceiling when it is; where a product is NaN or infinite, nothing is
    placed, the conversion raises and the engine with it. *)
Theorem C5_scaling_toward_zero (depth : nat) (elem : Float64.EditableElement)
    (scale_x scale_y : float) :
  let f := Float64.select_bbox depth elem in
  match Float64.value (Float64.x0 f * scale_x),
        Float64.value (Float64.y0 f * scale_y),
        Float64.value (Float64.x1 f * scale_x),
        Float64.value (Float64.y1 f * scale_y) with
  | Some qa, Some qb, Some qc, Some qd =>
      Float64.bbox_list f scale_x scale_y
      = inr [ round_toward_zero qa; round_toward_zero qb;
              round_toward_zero qc; round_toward_zero qd ]
  | _, _, _, _ =>
      exists e, Float64.bbox_list f scale_x scale_y = inl e
        /\ forall (B : Type) (builder : PPTXBuilder B)
             (path_exists : string -> bool) (b : B),
             @Float64.add_editable_element B builder path_exists scale_x scale_y
               depth elem b
             = Raise e b
  end.
Proof.
  cbv zeta. set (f := Float64.select_bbox depth elem).
  assert (Hraise : forall e, Float64.bbox_list f scale_x scale_y = inl e ->
            exists e0, Float64.bbox_list f scale_x scale_y = inl e0
              /\ forall (B : Type) (builder : PPTXBuilder B)
                   (path_exists : string -> bool) (b : B),
                   @Float64.add_editable_element B builder path_exists
                     scale_x scale_y depth elem b
                   = Raise e0 b).
  { intros e He. exists e. split; [exact He |]. intros B builder path_exists b.
    apply float_engine_raises. exact He. }
  unfold Float64.bbox_list in *.
  pose proof (int_value (Float64.x0 f * scale_x)) as Ha.
  pose proof (int_value (Float64.y0 f * scale_y)) as Hb.
  pose proof (int_value (Float64.x1 f * scale_x)) as Hc.
  pose proof (int_value (Float64.y1 f * scale_y)) as Hd.
  destruct (Float64.value (Float64.x0 f * scale_x)) as [qa |];
    [| destruct Ha as [e Ha]; apply (Hraise e); rewrite Ha; reflexivity].
  rewrite Ha in *. cbn [and_then] in *.
  destruct (Float64.value (Float64.y0 f * scale_y)) as [qb |];
    [| destruct Hb as [e Hb]; apply (Hraise e); rewrite Hb; reflexivity].
  rewrite Hb in *. cbn [and_then] in *.
  destruct (Float64.value (Float64.x1 f * scale_x)) as [qc |];
    [| destruct Hc as [e Hc]; apply (Hraise e); rewrite Hc; reflexivity].
  rewrite Hc in *. cbn [and_then] in *.
  destruct (Float64.value (Float64.y1 f * scale_y)) as [qd |];
    [| destruct Hd as [e Hd]; apply (Hraise e); rewrite Hd; reflexivity].
  rewrite Hd. reflexivity.
Qed.

(** ** Fault containment, on the recording builder *)

Section RecordedComposition.

Variable path_exists : string -> bool.
Variables scale_x scale_y : Q.

Abbreviation recorded_element fails depth :=
  (@add_editable_element log (recorder fails) path_exists scale_x scale_y depth).

Lemma attempted_snoc (l : log) (c : call) (flag : bool) :
  attempted (l ++ [(c, flag)]) = attempted l ++ [c].
Proof. unfold attempted. rewrite fmap_app. reflexivity. Qed.

Lemma emits_nothing : emits (fun _ l => Ok tt l) [].
Proof. intros fails l0 _. simpl. rewrite app_nil_r. auto. Qed.

(** A call inside [try ... except Exception] is attempted and never
    raises to the caller. *)
Lemma emits_caught (c : call) :
  emits (fun fails l => try_except (record fails c l)) [c].
Proof.
  intros fails l0 _. unfold record.
  destruct (fails l0 c); simpl; rewrite attempted_snoc; auto.
Qed.

Lemma emits_placeholder (bl : list Z) :
  emits (fun fails l => record fails (AddPlaceholder bl) l) [AddPlaceholder bl].
Proof.
  intros fails l0 Hsafe. unfold record. rewrite Hsafe. simpl.
  rewrite attempted_snoc. auto.
Qed.

Lemma emits_bind run1 run2 cs1 cs2 :
  emits run1 cs1 -> emits run2 cs2 ->
  emits (fun fails l => bind (run1 fails l) (fun _ => run2 fails)) (cs1 ++ cs2).
Proof.
  intros H1 H2 fails l0 Hsafe.
  destruct (H1 fails l0 Hsafe) as [Hr1 Ha1].
  destruct (run1 fails l0) as [[] l1 | e l1]; [| discriminate]. simpl in *.
  destruct (H2 fails l1 Hsafe) as [Hr2 Ha2].
  rewrite Hr2, Ha2, Ha1, app_assoc. auto.
Qed.

Lemma emits_ext run1 run2 cs :
  (forall fails l, run1 fails l = run2 fails l) -> emits run1 cs -> emits run2 cs.
Proof.
  intros Heq H1 fails l0 Hsafe. rewrite <- Heq. apply H1, Hsafe.
Qed.

Lemma emits_text elem bl level align :
  exists cs,
    emits (fun fails l =>
             @add_text log (recorder fails) elem bl level align l) cs.
Proof.
  unfold add_text. destruct (content elem) as [c |].
  - destruct (negb (String.eqb c "")).
    + destruct (negb (String.eqb (Py.strip c) "")).
      * eexists. apply (emits_caught (AddText (Py.strip c) bl level align)).
      * eexists. apply emits_nothing.
    + eexists. apply emits_nothing.
  - eexists. apply emits_nothing.
Qed.

Lemma emits_flattened elem bl :
  exists cs,
    emits (fun fails l =>
             @add_flattened log (recorder fails) path_exists elem bl l) cs.
Proof.
  unfold add_flattened. destruct (image_path elem) as [p |].
  - destruct (negb (String.eqb p "") && path_exists p).
    + eexists. apply (emits_caught (AddImage p bl)).
    + eexists. apply emits_placeholder.
  - eexists. apply emits_placeholder.
Qed.

Lemma emits_background elem bl :
  exists cs,
    emits (fun fails l =>
             @add_background log (recorder fails) path_exists elem bl l) cs.
Proof.
  unfold add_background. destruct (inpainted_background_path elem) as [p |].
  - destruct (path_exists p).
    + eexists. apply (emits_caught (AddImage p bl)).
    + eexists. apply emits_nothing.
  - eexists. apply emits_nothing.
Qed.

Lemma emits_for_each depth (l : list EditableElement) :
  Forall (fun e => exists cs, emits (fun fails => recorded_element fails depth e) cs) l ->
  exists cs,
    emits (fun fails =>
             @for_each log (recorded_element fails depth) l) cs.
Proof.
  induction 1 as [| e l [cs1 He] _ [cs2 IH]].
  - exists []. apply emits_nothing.
  - exists (cs1 ++ cs2). simpl.
    apply (emits_bind (fun fails => recorded_element fails depth e)
             (fun fails => @for_each log (recorded_element fails depth) l));
      assumption.
Qed.

Lemma emits_background_then_children depth elem :
  Forall (fun e => exists cs,
              emits (fun fails => recorded_element fails (S depth) e) cs)
    (children elem) ->
  exists cs,
    emits (fun fails l =>
             bind (@add_background log (recorder fails) path_exists elem
                     (bbox_list (select_bbox depth elem) scale_x scale_y) l)
               (fun _ => @for_each log (recorded_element fails (S depth))
                           (children elem))) cs.
Proof.
  intros Hcs.
  destruct (emits_background elem
              (bbox_list (select_bbox depth elem) scale_x scale_y)) as [cs1 H1].
  destruct (emits_for_each (S depth) _ Hcs) as [cs2 H2].
  exists (cs1 ++ cs2).
  apply (emits_bind _ (fun fails => @for_each log (recorded_element fails (S depth))
                                      (children elem))); assumption.
Qed.

(** The calls attempted for one element do not depend on the calls that
    raise. *)
Lemma emits_element (e : EditableElement) :
  forall depth, exists cs, emits (fun fails => recorded_element fails depth e) cs.
Proof.
  induction e as [id ty c l g ip bg cs IH] using EditableElement_tree_ind.
  intros depth.
  set (elem := mkElement id ty c l g ip bg cs).
  assert (Hkids : Forall (fun e => exists cs',
                    emits (fun fails => recorded_element fails (S depth) e) cs')
                    (children elem)).
  { simpl. eapply Forall_impl; [exact IH |]. intros e He. apply He. }
  destruct (String.eqb ty "text" || String.eqb ty "title") eqn:Htext.
  { destruct (emits_text elem (bbox_list (select_bbox depth elem) scale_x scale_y)
                (Some (if String.eqb ty "title" then "title" else "default")) None)
      as [cs' H'].
    exists cs'. eapply emits_ext; [| exact H'].
    intros fails l0. subst elem. cbn - [select_bbox bbox_list add_text].
    rewrite Htext. reflexivity. }
  destruct (String.eqb ty "table_cell") eqn:Hcell.
  { destruct (emits_text elem (bbox_list (select_bbox depth elem) scale_x scale_y)
                None (Some "center")) as [cs' H'].
    exists cs'. eapply emits_ext; [| exact H'].
    intros fails l0. subst elem. cbn - [select_bbox bbox_list add_text].
    rewrite Htext, Hcell. reflexivity. }
  destruct (String.eqb ty "table") eqn:Htable.
  { apply String.eqb_eq in Htable.
    destruct (negb (bool_decide (children elem = []))
              && Py.truthy (inpainted_background_path elem)) eqn:Hrec.
    - destruct (emits_background_then_children depth elem Hkids) as [cs' H'].
      exists cs'. eapply emits_ext; [| exact H'].
      intros fails l0. cbv beta.
      rewrite (@table_dispatch log (recorder fails)) by exact Htable.
      rewrite Hrec. reflexivity.
    - destruct (emits_flattened elem
                  (bbox_list (select_bbox depth elem) scale_x scale_y)) as [cs' H'].
      exists cs'. eapply emits_ext; [| exact H'].
      intros fails l0. cbv beta.
      rewrite (@table_dispatch log (recorder fails)) by exact Htable.
      rewrite Hrec. reflexivity. }
  destruct (is_image_type elem) eqn:Himage.
  { destruct (guarded_recursion_enabled elem (select_bbox depth elem)) eqn:Hrec.
    - destruct (emits_background_then_children depth elem Hkids) as [cs' H'].
      exists cs'. eapply emits_ext; [| exact H'].
      intros fails l0. cbv beta.
      rewrite (@image_dispatch log (recorder fails)) by exact Himage.
      rewrite Hrec. reflexivity.
    - destruct (emits_flattened elem
                  (bbox_list (select_bbox depth elem) scale_x scale_y)) as [cs' H'].
      exists cs'. eapply emits_ext; [| exact H'].
      intros fails l0. cbv beta.
      rewrite (@image_dispatch log (recorder fails)) by exact Himage.
      rewrite Hrec. reflexivity. }
  exists []. eapply emits_ext; [| exact emits_nothing].
  intros fails l0. subst elem. unfold is_image_type in Himage.
  cbn [element_type] in Himage.
  cbn - [select_bbox bbox_list should_use_recursive_render].
  rewrite Htext, Hcell, Htable, Himage. reflexivity.
Qed.

End RecordedComposition.


(** ** The page analysis fan-out *)

Section AnalysisFacts.

Context {B : Type} `{PPTXBuilder B}.
Variable path_exists : string -> bool.
Variable make_image_editable : string -> exn + EditableImage.

Abbreviation futures_of := (submit_all make_image_editable).

Lemma elem_of_submit_all (paths : list string) (i : nat) r :
  (i, r) ∈ futures_of paths
  <-> exists p, paths !! i = Some p /\ r = make_image_editable p.
Proof.
  unfold submit_all. rewrite elem_of_lookup_imap. split.
  - intros (j & p & Heq & Hp). inversion Heq; subst. eauto.
  - intros (p & Hp & ->). eauto.
Qed.

Lemma index_submitted (paths : list string) (j : nat) :
  j ∈ (futures_of paths).*1 <-> (j < length paths)%nat.
Proof.
  rewrite list_elem_of_fmap. split.
  - intros ([i r] & -> & Hin). apply elem_of_submit_all in Hin as (p & Hp & _).
    simpl. eapply lookup_lt_Some, Hp.
  - intros Hlt. apply lookup_lt_is_Some in Hlt as [p Hp].
    exists (j, make_image_editable p). split; [reflexivity |].
    apply elem_of_submit_all. eauto.
Qed.

(** When every completed future holds a result, the loop fills the slot
    of each of them and leaves the others. *)
Lemma collect_fills (vs : list EditableImage) (completed : list future) :
  forall results : list (option EditableImage),
    (forall i r, (i, r) ∈ completed ->
       (i < length results)%nat /\ exists v, r = inr v /\ vs !! i = Some v) ->
    exists res,
      collect completed results = inr res
      /\ length res = length results
      /\ forall j, res !! j = if decide (j ∈ completed.*1)
                              then Some <$> vs !! j else results !! j.
Proof.
  induction completed as [| [i r] rest IH]; intros results Hall.
  - exists results. split; [reflexivity | split; [reflexivity |]].
    intros j. rewrite decide_False; [reflexivity | apply not_elem_of_nil].
  - destruct (Hall i r) as (Hi & v & -> & Hv); [left |].
    destruct (IH (<[i := Some v]> results)) as (res & Hres & Hlen & Hlook).
    { intros i' r' Hin. rewrite length_insert. apply Hall. right. exact Hin. }
    exists res. cbn [collect]. apply Nat.ltb_lt in Hi as Hi'. rewrite Hi'.
    rewrite length_insert in Hlen. repeat split; [exact Hres | exact Hlen |].
    intros j. rewrite Hlook.
    change (((i, inr v) :: rest).*1) with (i :: rest.*1).
    destruct (decide (j = i)) as [-> | Hne].
    + rewrite (decide_True (P := i ∈ i :: rest.*1)) by left.
      case_decide; [reflexivity |].
      rewrite list_lookup_insert_eq by exact Hi. rewrite Hv. reflexivity.
    + rewrite list_lookup_insert_ne by congruence.
      case_decide as Hin.
      * rewrite decide_True by (right; exact Hin). reflexivity.
      * rewrite decide_False; [reflexivity |].
        intros Hin'. apply elem_of_cons in Hin' as [? | ?]; contradiction.
Qed.

(** When a completed future holds an exception, the loop raises the
    exception of one that does. *)
Lemma collect_raises (completed : list future) :
  forall results : list (option EditableImage),
    (forall i r, (i, r) ∈ completed -> (i < length results)%nat) ->
    (exists i e, (i, inl e) ∈ completed) ->
    exists i e, (i, inl e) ∈ completed /\ collect completed results = inl e.
Proof.
  induction completed as [| [i r] rest IH]; intros results Hidx (i0 & e0 & Hin).
  - inversion Hin.
  - destruct r as [e | v].
    + exists i, e. split; [left | reflexivity].
    + apply elem_of_cons in Hin as [Heq | Hin]; [discriminate |].
      destruct (IH (<[i := Some v]> results)) as (i1 & e1 & Hin1 & Hc).
      { intros i' r' Hin'. rewrite length_insert. eapply Hidx. right. exact Hin'. }
      { eauto. }
      exists i1, e1. split; [right; exact Hin1 |]. simpl.
      assert (Hi : (i <? length results)%nat = true).
      { apply Nat.ltb_lt. eapply Hidx. left. }
      rewrite Hi. exact Hc.
Qed.

(** C7: whatever the order in which the futures complete, when every
    page can be analysed the result sequence holds, at position [i], the
    analysis of page [i]; the document is built from that sequence. *)
Theorem C7_page_order (paths : list string) (completed : list future)
    (vs : list EditableImage) (output_file : option string) (width height : Z) :
  completed ≡ₚ futures_of paths ->
  Forall2 (fun p v => make_image_editable p = inr v) paths vs ->
  analyse_pages paths completed = inr (Some <$> vs)
  /\ (paths <> [] ->
      create_editable_pptx_with_recursive_analysis (B := B) path_exists
        (Some paths) output_file width height None completed
      = build_document path_exists (Some <$> vs) output_file width height).
Proof.
  intros Hperm Hvs.
  enough (Hres' : analyse_pages paths completed = inr (Some <$> vs)).
  { split; [exact Hres' |]. intros Hne.
    unfold create_editable_pptx_with_recursive_analysis.
    destruct paths; [contradiction |]. rewrite Hres'. reflexivity. }
  unfold analyse_pages.
  destruct (collect_fills vs completed (replicate (length paths) None))
    as (res & Hres & Hlen & Hlook).
  { intros i r Hin. rewrite Hperm in Hin.
    apply elem_of_submit_all in Hin as (p & Hp & ->).
    rewrite length_replicate. split; [eapply lookup_lt_Some, Hp |].
    destruct (Forall2_lookup_l _ _ _ _ _ Hvs Hp) as (v & Hv & Hpv). eauto. }
  rewrite Hres. f_equal. apply list_eq. intros j.
  rewrite Hlook, list_lookup_fmap.
  case_decide as Hj; [reflexivity |].
  rewrite Hperm, index_submitted in Hj.
  rewrite (lookup_ge_None_2 vs j)
    by (rewrite <- (Forall2_length _ _ _ Hvs); lia).
  apply lookup_replicate_None. lia.
Qed.

End AnalysisFacts.

(** C6: when the analysis of a page of the batch raises, whatever the
    order in which the futures complete, the export raises the exception of
    a page whose analysis raised, before any builder exists: nothing is
    built, saved or returned for any page. *)
Theorem C6_batch_fail_fast {B : Type} `{PPTXBuilder B}
    (path_exists : string -> bool)
    (make_image_editable : string -> exn + EditableImage)
    (paths : list string) (completed : list future)
    (output_file : option string) (width height : Z) :
  completed ≡ₚ submit_all make_image_editable paths ->
  (exists p e, p ∈ paths /\ make_image_editable p = inl e) ->
  exists p e,
    p ∈ paths /\ make_image_editable p = inl e
    /\ create_editable_pptx_with_recursive_analysis (B := B) path_exists
         (Some paths) output_file width height None completed
       = ExportRaised e None.
Proof.
  intros Hperm (p0 & e0 & Hp0 & He0).
  apply list_elem_of_lookup in Hp0 as [i0 Hi0].
  destruct (collect_raises completed (replicate (length paths) None))
    as (i & e & Hin & Hc).
  { intros i r Hin. rewrite Hperm in Hin.
    apply elem_of_submit_all in Hin as (p & Hp & _).
    rewrite length_replicate. eapply lookup_lt_Some, Hp. }
  { exists i0, e0. rewrite Hperm. apply elem_of_submit_all.
    exists p0. split; [exact Hi0 | symmetry; exact He0]. }
  rewrite Hperm in Hin. apply elem_of_submit_all in Hin as (p & Hp & Hpe).
  exists p, e. split; [eapply list_elem_of_lookup_2, Hp |].
  split; [symmetry; exact Hpe |].
  unfold create_editable_pptx_with_recursive_analysis, analyse_pages.
  destruct paths as [| p1 paths']; [inversion Hi0 |].
  rewrite Hc. reflexivity.
Qed.

(** ** The inpaint providers *)

Section InpaintFacts.

Variable Image : Type.

(** C8: neither strategy raises to its caller: [inpaint_regions] of the
    region-precise provider and of the generative provider return an image
    or [None], whatever their collaborators return or raise. *)
Theorem C8_inpaint_never_raises
    (dflt : Inpaint.DefaultInpaintProvider Image)
    (gen : Inpaint.GenerativeEditInpaintProvider Image)
    (image : Image) (bboxes : list (list Z)) (types : option (list string))
    (kwargs : gmap string (Inpaint.pyval Image)) (fs : gset string) :
  (exists r : option Image,
      Inpaint.default_inpaint_regions Image dflt image bboxes types kwargs = inr r)
  /\ (exists (r : option Image) (fs' : gset string),
        Inpaint.generative_inpaint_regions Image gen image bboxes types kwargs fs
        = Ok r fs').
Proof.
  split.
  - unfold Inpaint.default_inpaint_regions.
    destruct (Inpaint.remove_regions_by_bboxes Image dflt _); eauto.
  - unfold Inpaint.generative_inpaint_regions.
    destruct (Inpaint.generative_try_body Image gen image _ _ fs); eauto.
Qed.

(** The disk a call of the generative provider leaves. *)
Lemma generative_disk (gen : Inpaint.GenerativeEditInpaintProvider Image)
    (image : Image) (aspect_ratio resolution : Inpaint.pyval Image)
    (fs : gset string) :
  state_of (Inpaint.generative_try_body Image gen image aspect_ratio resolution fs)
  = match Inpaint.created_temp_file Image gen fs with
    | Some tmp_path => {[tmp_path]} ∪ fs
    | None => fs
    end.
Proof.
  unfold Inpaint.generative_try_body, Inpaint.created_temp_file,
    Inpaint.NamedTemporaryFile.
  destruct (Inpaint.get_clean_background_prompt Image gen) as [e | prompt];
    [reflexivity |]. simpl.
  destruct (Inpaint.temp_name Image gen fs) as [e | tmp]; [reflexivity |]. simpl.
  destruct (Inpaint.image_save Image gen image tmp) as [e |]; [reflexivity |].
  simpl.
  destruct (Inpaint.edit_image Image gen prompt tmp aspect_ratio resolution)
    as [e | []]; reflexivity.
Qed.

(** C9, amended: a call of the generative provider's [inpaint_regions]
    creates at most one temporary file and deletes nothing: on every exit
    path, the files on disk when it returns are those on disk before the
    call and the temporary file it created, if it created one. *)
Theorem C9_temporary_file_kept
    (gen : Inpaint.GenerativeEditInpaintProvider Image)
    (image : Image) (bboxes : list (list Z)) (types : option (list string))
    (kwargs : gmap string (Inpaint.pyval Image)) (fs : gset string) :
  state_of (Inpaint.generative_inpaint_regions Image gen image bboxes types kwargs fs)
  = match Inpaint.created_temp_file Image gen fs with
    | Some tmp_path => {[tmp_path]} ∪ fs
    | None => fs
    end.
Proof.
  unfold Inpaint.generative_inpaint_regions.
  rewrite <- (generative_disk gen image
                (Inpaint.kwargs_get Image kwargs "aspect_ratio"
                   (Inpaint.self_aspect_ratio Image gen))
                (Inpaint.kwargs_get Image kwargs "resolution"
                   (Inpaint.self_resolution Image gen)) fs).
  destruct (Inpaint.generative_try_body Image gen image _ _ fs); reflexivity.
Qed.

End InpaintFacts.

(** * The statements at sample inputs *)

Section SampleRuns.

Import Samples.

(** The heading, whose [bbox_global] is populated, is placed by its
    [bbox] at depth 0 and by its [bbox_global] at depth 1. *)
Example heading_frames :
  attempted (state_of (@_add_editable_elements_to_slide log (recorder never_fails)
                         no_file [heading] 1 1 0 []))
  = [AddText "Results" [0; 0; 300; 40] (Some "title") None]
  /\ attempted (state_of (@_add_editable_elements_to_slide log (recorder never_fails)
                            no_file [heading] 1 1 1 []))
     = [AddText "Results" [7; 7; 8; 8] (Some "title") None].
Proof. split; reflexivity. Qed.




(** The page with every add-text and add-image call raising: each call is
    attempted all the same, none goes through. *)
Example page_with_failing_builder :
  @_add_editable_elements_to_slide log (recorder only_placeholders)
    every_file page 1 1 0 []
  = Ok tt
      [ (AddText "Results" [0; 0; 300; 40] (Some "title") None, true);
        (AddImage "pic_bg.png" [0; 0; 100; 10], true);
        (AddText "label" [0; 0; 84; 10] (Some "default") None, true);
        (AddImage "tab_bg.png" [0; 0; 100; 50], true);
        (AddText "42" [10; 10; 20; 15] None (Some "center"), true);
        (AddImage "pic.png" [0; 0; 100; 10], true) ]
  /\ performed (state_of (@_add_editable_elements_to_slide log
                            (recorder only_placeholders) every_file page 1 1 0 []))
     = []
  /\ attempted (state_of (@_add_editable_elements_to_slide log
                            (recorder only_placeholders) every_file page 1 1 0 []))
     = attempted (state_of (@_add_editable_elements_to_slide log
                              (recorder never_fails) every_file page 1 1 0 [])).
Proof. repeat split; reflexivity. Qed.


Lemma completion_312_permutation (f : string -> exn + EditableImage) :
  completion_312 f ≡ₚ submit_all f three_pages.
Proof.
  exact (Permutation_cons_append [(0%nat, f "p1.png"); (1%nat, f "p2.png")]
           (2%nat, f "p3.png")).
Defined.

Lemma C6_witness :
  exists p e,
    p ∈ three_pages /\ analysis_page2_fails p = inl e
    /\ @create_editable_pptx_with_recursive_analysis log (recorder never_fails)
         every_file (Some three_pages) None 1920 1080 None
         (completion_312 analysis_page2_fails)
       = ExportRaised e None.
Proof.
  apply (@C6_batch_fail_fast log (recorder never_fails) every_file
           analysis_page2_fails three_pages
           (completion_312 analysis_page2_fails) None 1920 1080).
  - apply completion_312_permutation.
  - exists "p2.png", (Exception "analysis failed").
    split; [| reflexivity]. right. left.
Defined.

(** The batch of three pages whose second page fails, and the same batch
    with three pages that can be analysed. *)
Example three_pages_page2_fails :
  @create_editable_pptx_with_recursive_analysis log (recorder never_fails)
    every_file (Some three_pages) None 1920 1080 None
    (completion_312 analysis_page2_fails)
  = ExportRaised (Exception "analysis failed") None.
Proof. reflexivity. Qed.

Lemma C7_witness :
  analyse_pages three_pages (completion_312 analysis_ok)
  = inr (Some <$> [blank "p1.png"; blank "p2.png"; blank "p3.png"])
  /\ @create_editable_pptx_with_recursive_analysis log (recorder never_fails)
       every_file (Some three_pages) None 1920 1080 None
       (completion_312 analysis_ok)
     = @build_document log (recorder never_fails) every_file
         (Some <$> [blank "p1.png"; blank "p2.png"; blank "p3.png"])
         None 1920 1080.
Proof.
  destruct (@C7_page_order log (recorder never_fails) every_file analysis_ok
              three_pages (completion_312 analysis_ok)
              [blank "p1.png"; blank "p2.png"; blank "p3.png"] None 1920 1080)
    as [Hres Hdoc].
  - apply completion_312_permutation.
  - repeat constructor.
  - split; [exact Hres | apply Hdoc; discriminate].
Defined.

(** The three pages, completed out of order, are built in page order. *)
Example three_pages_in_order :
  @create_editable_pptx_with_recursive_analysis log (recorder never_fails)
    every_file (Some three_pages) None 1920 1080 None
    (completion_312 analysis_ok)
  = Exported (Some [8])
      [ (SetupPresentation 1920 1080, false);
        (AddBlankSlide, false); (AddPicture "p1.png", false);
        (AddBlankSlide, false); (AddPicture "p2.png", false);
        (AddBlankSlide, false); (AddPicture "p3.png", false);
        (ToBytes, false) ].
Proof. reflexivity. Qed.

(** [str.strip()], and a text element of blanks: no call at all. *)
Example strip_samples :
  Py.strip "  hello world " = "hello world"
  /\ Py.strip "   " = ""
  /\ @_add_editable_elements_to_slide log (recorder never_fails) every_file
       [text_elem "t" "  " (box 0 0 1 1) None] 1 1 0 []
     = Ok tt [].
Proof. repeat split; reflexivity. Qed.

(** C9, as stated, fails: after a call that returns an image, and after
    a call whose editing service raises, the temporary file the call
    created is still on disk. *)
Lemma C9_counterexample :
  Inpaint.created_temp_file nat working_provider ∅ = Some "/tmp/tmpa1b2c3.png"
  /\ Inpaint.generative_inpaint_regions nat working_provider 0%nat [] None ∅ ∅
     = Ok (Some 7%nat) ({["/tmp/tmpa1b2c3.png"]} ∪ ∅)
  /\ Inpaint.created_temp_file nat failing_provider ∅ = Some "/tmp/tmpa1b2c3.png"
  /\ Inpaint.generative_inpaint_regions nat failing_provider 0%nat [] None ∅ ∅
     = Ok None ({["/tmp/tmpa1b2c3.png"]} ∪ ∅)
  /\ "/tmp/tmpa1b2c3.png"
     ∈ state_of (Inpaint.generative_inpaint_regions nat working_provider 0%nat
                   [] None ∅ ∅)
  /\ "/tmp/tmpa1b2c3.png"
     ∈ state_of (Inpaint.generative_inpaint_regions nat failing_provider 0%nat
                   [] None ∅ ∅).
Proof.
  repeat split; try reflexivity; simpl; set_solver.
Qed.

End SampleRuns.

(** * The engine on binary64 floats at sample inputs *)

Section Float64SampleRuns.

Import Float64.

(** The heading, whose [bbox_global] is populated, is placed by its
    [bbox] at depth 0 and by its [bbox_global] at depth 1. *)
Example float_heading_frames :
  @_add_editable_elements_to_slide log (recorder Samples.never_fails)
    Samples.no_file [heading] 1 1 0 []
  = Ok tt [(AddText "Results" [0; 0; 300; 40] (Some "title") None, false)]
  /\ @_add_editable_elements_to_slide log (recorder Samples.never_fails)
       Samples.no_file [heading] 1 1 1 []
     = Ok tt [(AddText "Results" [7; 7; 8; 8] (Some "title") None, false)].
Proof. split; reflexivity. Qed.

Lemma C1_witness :
  exists own : log,
    (length own <= 1)%nat
    /\ Forall (fun entry : call * bool => call_bbox entry.1 = Some [0; 0; 300; 40])
         own
    /\ (state_of (@add_editable_element log (recorder Samples.never_fails)
                    Samples.no_file 1 1 0 heading [])
        = [] ++ own
        \/ state_of (@add_editable_element log (recorder Samples.never_fails)
                       Samples.no_file 1 1 0 heading [])
           = state_of (@_add_editable_elements_to_slide log
                         (recorder Samples.never_fails) Samples.no_file
                         (children heading) 1 1 1 ([] ++ own))).
Proof.
  apply (proj1 (C1_frame_placed Samples.no_file 1 1 0 heading (bbox heading)
                  (or_introl (conj eq_refl eq_refl)))
           Samples.never_fails [] 0 0 300 40); reflexivity.
Defined.

(** The products are rounded before they are converted: a third times 3
    is 1.0 and is placed at 1, 2.3 times 100 is 229.99999999999997 and is
    placed at 229; a NaN and an infinite coordinate raise. *)
Example rounded_products :
  bbox_list (box third two_point_three 0 0) 3 100 = inr [1; 229; 0; 0]
  /\ bbox_list (box two_point_three third 0 0) 3 100 = inr [6; 33; 0; 0]
  /\ bbox_list (box 0 nan 0 0) 1 1
     = inl (Exception "ValueError: cannot convert float NaN to integer")
  /\ bbox_list (box 0 0 infinity nan) 1 1
     = inl (Exception "OverflowError: cannot convert float infinity to integer")
  /\ @add_editable_element log (recorder Samples.never_fails) Samples.every_file
       1 infinity 0 heading []
     = Raise (Exception "ValueError: cannot convert float NaN to integer") [].
Proof. repeat split; reflexivity. Qed.

(** C5, as stated, fails: the heading's left edge, -0.5, is placed at 0
    with scale 1.0, and the floor of the product, -1/2, is -1; a third, the
    double 0.3333333333333333, is placed at 1 with scale 3.0, and the floor
    of three times its value is 0. *)
Lemma C5_counterexample :
  exists q t : Q,
    value (x0 (select_bbox 0 heading) * 1) = Some q
    /\ q == -1 # 2
    /\ Qfloor q = -1
    /\ bbox_list (select_bbox 0 heading) 1 1 = inr [0; 0; 300; 40]
    /\ bbox_list (select_bbox 0 heading) 1 1
       <> inr [Qfloor q; 0; 300; 40]
    /\ value third = Some t
    /\ Qfloor (t * 3) = 0
    /\ bbox_list (box third 0 0 0) 3 1 = inr [1; 0; 0; 0].
Proof.
  eexists. eexists. split; [reflexivity |].
  split; [reflexivity |]. split; [reflexivity |]. split; [reflexivity |].
  split; [discriminate |]. split; [reflexivity |]. split; reflexivity.
Qed.

(** C3, as stated, fails.  A figure whose box has area zero has a child
    whose area, 100, exceeds 0.85 times the parent's area, and is recursed
    into all the same.  With a positive area too: a child of area 69.7 in a
    parent of area 82 does not exceed the binary64 product 0.85 * 82 and the
    picture is flattened, its quotient being above 0.85; a child of area
    11.9 in a parent of area 14 exceeds 17/20 of 14 and the picture is
    recursed into, its quotient being the double 0.85. *)
Lemma C3_counterexample :
  (is_image_type flat_picture = true
   /\ area (select_bbox 0 flat_picture) = 0%float
   /\ area (child_bbox (text_elem "inner" "inner" (box 0 0 1 1)
                          (Some (box 0 0 10 10)))) = 100%float
   /\ spec_recursion_enabled exceeds_share flat_picture
        (select_bbox 0 flat_picture) = false
   /\ spec_recursion_enabled exceeds_exact_share flat_picture
        (select_bbox 0 flat_picture) = false
   /\ should_use_recursive_render flat_picture (select_bbox 0 flat_picture) = true
   /\ @add_editable_element log (recorder Samples.never_fails) Samples.every_file
        1 1 0 flat_picture []
      = Ok tt [ (AddImage "flat_bg.png" [5; 0; 5; 10], false);
                (AddText "inner" [0; 0; 10; 10] (Some "default") None, false) ])
  /\ (area (select_bbox 0 (strip_picture 82 width_69_7)) = 82%float
      /\ spec_recursion_enabled exceeds_share (strip_picture 82 width_69_7)
           (select_bbox 0 (strip_picture 82 width_69_7)) = true
      /\ should_use_recursive_render (strip_picture 82 width_69_7)
           (select_bbox 0 (strip_picture 82 width_69_7)) = false
      /\ @add_editable_element log (recorder Samples.never_fails)
           Samples.every_file 1 1 0 (strip_picture 82 width_69_7) []
         = Ok tt [(AddImage "strip.png" [0; 0; 82; 1], false)])
  /\ (area (select_bbox 0 (strip_picture 14 width_11_9)) = 14%float
      /\ spec_recursion_enabled exceeds_exact_share (strip_picture 14 width_11_9)
           (select_bbox 0 (strip_picture 14 width_11_9)) = false
      /\ should_use_recursive_render (strip_picture 14 width_11_9)
           (select_bbox 0 (strip_picture 14 width_11_9)) = true
      /\ @add_editable_element log (recorder Samples.never_fails)
           Samples.every_file 1 1 0 (strip_picture 14 width_11_9) []
         = Ok tt [ (AddImage "strip_bg.png" [0; 0; 14; 1], false);
                   (AddText "label" [0; 0; 11; 1] (Some "default") None, false) ]).
Proof.
  repeat split; reflexivity.
Qed.

Lemma C3_witness :
  should_use_recursive_render (picture width_84_9)
    (select_bbox 0 (picture width_84_9))
  = guarded_recursion_enabled (picture width_84_9)
      (select_bbox 0 (picture width_84_9))
  /\ @add_editable_element log (recorder Samples.never_fails) Samples.every_file
       1 1 0 (picture width_84_9) []
     = bind (@add_background log (recorder Samples.never_fails) Samples.every_file
               (picture width_84_9) [0; 0; 100; 10] [])
         (fun _ => @for_each log
                     (@add_editable_element log (recorder Samples.never_fails)
                        Samples.every_file 1 1 1)
                     (children (picture width_84_9))).
Proof.
  destruct (@C3_dominant_child log (recorder Samples.never_fails)
              Samples.every_file 1 1 0%nat (picture width_84_9) [0; 0; 100; 10] []
              eq_refl eq_refl) as (Hrule & Hbranch & _).
  split; [exact Hrule | exact Hbranch].
Defined.

(** The two pictures of the specification: with the child of area 851 the
    picture is flattened, with the child of area 849 its background and its
    child are added. *)
Example float_pictures :
  @add_editable_element log (recorder Samples.never_fails) Samples.every_file
    1 1 0 (picture width_85_1) []
  = Ok tt [(AddImage "pic.png" [0; 0; 100; 10], false)]
  /\ @add_editable_element log (recorder Samples.never_fails) Samples.every_file
       1 1 0 (picture width_84_9) []
     = Ok tt [ (AddImage "pic_bg.png" [0; 0; 100; 10], false);
               (AddText "label" [0; 0; 84; 10] (Some "default") None, false) ].
Proof. split; reflexivity. Qed.

End Float64SampleRuns.

(** * Further properties *)

(** ** The composition engine on any builder *)


Section EngineFacts.

Context {B : Type} `{PPTXBuilder B}.
Variable path_exists : string -> bool.
Variables scale_x scale_y : Q.

Abbreviation engine depth := (add_editable_element path_exists scale_x scale_y depth).
Abbreviation compose elements depth :=
  (_add_editable_elements_to_slide path_exists elements scale_x scale_y depth).

(** One step of the recursion. *)
Lemma add_editable_element_unfold depth elem b :
  engine depth elem b
  = element_dispatch path_exists scale_x scale_y depth
      (for_each (engine (S depth)) (children elem)) elem b.
Proof.
  destruct (String.eqb (element_type elem) "table") eqn:Htable.
  - apply String.eqb_eq in Htable.
    rewrite (table_dispatch _ _ _ _ _ _ Htable).
    unfold element_dispatch. rewrite Htable. reflexivity.
  - destruct (is_image_type elem) eqn:Himage.
    + rewrite (image_dispatch _ _ _ _ _ _ Himage).
      unfold element_dispatch. rewrite Htable, Himage.
      unfold is_image_type in Himage.
      destruct (String.eqb (element_type elem) "text") eqn:E1;
        [apply String.eqb_eq in E1; rewrite E1 in Himage; discriminate |].
      destruct (String.eqb (element_type elem) "title") eqn:E2;
        [apply String.eqb_eq in E2; rewrite E2 in Himage; discriminate |].
      destruct (String.eqb (element_type elem) "table_cell") eqn:E3;
        [apply String.eqb_eq in E3; rewrite E3 in Himage; discriminate |].
      reflexivity.
    + unfold element_dispatch. rewrite Htable, Himage.
      unfold is_image_type in Himage.
      destruct elem as [id ty c l g ip bg cs]. cbn [element_type] in *.
      cbn - [select_bbox bbox_list should_use_recursive_render add_text].
      rewrite Htable, Himage. reflexivity.
Qed.

Lemma bind_ext {A C : Type} (r : result B A) (k1 k2 : A -> B -> result B C) :
  (forall a s, k1 a s = k2 a s) -> bind r k1 = bind r k2.
Proof. intros Hk. destruct r; simpl; auto. Qed.

Lemma element_dispatch_ext d1 d2 (r1 r2 : B -> result B unit) elem b :
  select_bbox d1 elem = select_bbox d2 elem ->
  (forall s, r1 s = r2 s) ->
  element_dispatch path_exists scale_x scale_y d1 r1 elem b
  = element_dispatch path_exists scale_x scale_y d2 r2 elem b.
Proof.
  intros Hsel Hr. unfold element_dispatch. rewrite Hsel.
  rewrite (bind_ext _ (fun _ => r1) (fun _ => r2)) by (intros; apply Hr).
  reflexivity.
Qed.

Lemma for_each_ext (f g : EditableElement -> B -> result B unit) l :
  Forall (fun e => forall b, f e b = g e b) l ->
  forall b, for_each f l b = for_each g l b.
Proof.
  induction 1 as [| e l He _ IH]; intros b; simpl; [reflexivity |].
  rewrite He. apply bind_ext. intros _ s. apply IH.
Qed.

(** X1: composing a list of elements is composing a first part and then,
    from the state it leaves, the rest; an exception in the first part is
    the exception of the whole. *)
Theorem compose_app (l1 l2 : list EditableElement) (depth : nat) (b : B) :
  compose (l1 ++ l2) depth b
  = bind (compose l1 depth b) (fun _ => compose l2 depth).
Proof.
  unfold _add_editable_elements_to_slide. apply for_each_app.
Qed.

(** X2: the children of an element that is neither a [table] nor an
    [image], [figure] or [chart] are never composed: replacing them changes
    nothing. *)
Theorem leaf_types_ignore_children (depth : nat) (elem : EditableElement)
    (cs : list EditableElement) (b : B) :
  is_container_type elem = false ->
  engine depth (with_children cs elem) b = engine depth elem b.
Proof.
  intros Hleaf. unfold is_container_type in Hleaf.
  apply orb_false_iff in Hleaf as [Htable Himage].
  rewrite !add_editable_element_unfold.
  destruct elem as [id ty c l g ip bg cs0].
  unfold element_dispatch, with_children, is_image_type in *.
  cbn [element_type] in *. rewrite Htable, Himage. reflexivity.
Qed.

(** X3: below the top level the depth plays no part: composing an
    element at any depth above 0 is composing it at depth 1, so the engine
    has no depth limit of its own. *)
Theorem depth_above_zero_irrelevant (elem : EditableElement) :
  forall (d : nat) (b : B), engine (S d) elem b = engine 1%nat elem b.
Proof.
  induction elem as [id ty c l g ip bg cs IH] using EditableElement_tree_ind.
  intros d b. rewrite !add_editable_element_unfold.
  apply element_dispatch_ext; [reflexivity |].
  cbn [children]. intros s.
  transitivity (for_each (engine 1%nat) cs s).
  - apply for_each_ext. eapply Forall_impl; [exact IH |].
    intros e He b'. apply He.
  - symmetry. apply for_each_ext. eapply Forall_impl; [exact IH |].
    intros e He b'. apply He.
Qed.


End EngineFacts.

(** ** What the engine asks of the builder *)

(** [str.strip()] leaves nothing to strip. *)
Lemma lstrip_head s c t : Py.lstrip s = String c t -> Py.isspace c = false.
Proof.
  induction s as [| a s IH]; simpl; [discriminate |].
  destruct (Py.isspace a) eqn:Ha; [exact IH |].
  intros Heq. inversion Heq; subst. exact Ha.
Qed.

Lemma rstrip_idempotent s : Py.rstrip (Py.rstrip s) = Py.rstrip s.
Proof.
  induction s as [| a s IH]; simpl; [reflexivity |].
  destruct (Py.rstrip s) as [| b t] eqn:Hs.
  - destruct (Py.isspace a) eqn:Ha; simpl; [reflexivity |].
    rewrite Ha. reflexivity.
  - cbn [Py.rstrip]. cbn [Py.rstrip] in IH.
    destruct (Py.rstrip t) as [| b' t'] eqn:Ht.
    + destruct (Py.isspace b) eqn:Hb; [discriminate |].
      inversion IH; subst. reflexivity.
    + inversion IH; subst. reflexivity.
Qed.

Lemma rstrip_keeps_head c t :
  Py.isspace c = false -> exists t', Py.rstrip (String c t) = String c t'.
Proof.
  intros Hc. simpl. destruct (Py.rstrip t); [rewrite Hc |]; eauto.
Qed.

Lemma strip_idempotent s : Py.strip (Py.strip s) = Py.strip s.
Proof.
  unfold Py.strip.
  destruct (Py.lstrip s) as [| c t] eqn:Hl; [reflexivity |].
  pose proof (lstrip_head _ _ _ Hl) as Hc.
  destruct (rstrip_keeps_head c t Hc) as [t' Ht']. rewrite Ht'.
  cbn [Py.lstrip]. rewrite Hc. rewrite <- Ht'. apply rstrip_idempotent.
Qed.

Section EngineCalls.

Variable path_exists : string -> bool.
Variables scale_x scale_y : Q.
Variable fails : log -> call -> bool.

Abbreviation ok_call := (engine_call_ok path_exists).
Abbreviation run_element depth :=
  (@add_editable_element log (recorder fails) path_exists scale_x scale_y depth).

Lemma appends_nothing n : appends ok_call n (fun l => Ok tt l).
Proof.
  intros l0. exists []. rewrite app_nil_r. repeat split; [constructor | simpl; lia].
Qed.

Lemma appends_record (c : call) n :
  ok_call c -> (1 <= n)%nat -> appends ok_call n (record fails c).
Proof.
  intros Hc Hn l0. unfold record.
  destruct (fails l0 c); eexists; (split; [reflexivity |]);
    (split; [repeat constructor; exact Hc | simpl; lia]).
Qed.

Lemma appends_caught (c : call) n :
  ok_call c -> (1 <= n)%nat ->
  appends ok_call n (fun l => try_except (record fails c l)).
Proof.
  intros Hc Hn l0. unfold record.
  destruct (fails l0 c); eexists; (split; [reflexivity |]);
    (split; [repeat constructor; exact Hc | simpl; lia]).
Qed.

Lemma appends_bind run1 run2 n1 n2 :
  appends ok_call n1 run1 -> appends ok_call n2 run2 ->
  appends ok_call (n1 + n2) (fun l => bind (run1 l) (fun _ => run2)).
Proof.
  intros H1 H2 l0. destruct (H1 l0) as (new1 & Hs1 & Hok1 & Hlen1).
  destruct (run1 l0) as [[] l1 | e l1]; simpl in *.
  - destruct (H2 l1) as (new2 & Hs2 & Hok2 & Hlen2).
    exists (new1 ++ new2). rewrite Hs2, Hs1, app_assoc.
    split; [reflexivity |]. split.
    + unfold attempted in *. rewrite fmap_app. apply Forall_app; auto.
    + rewrite length_app. lia.
  - exists new1. repeat split; [exact Hs1 | exact Hok1 | lia].
Qed.

Lemma appends_weaken n m run :
  (n <= m)%nat -> appends ok_call n run -> appends ok_call m run.
Proof.
  intros Hnm Hr l0. destruct (Hr l0) as (new & Hs & Hok & Hlen).
  exists new. repeat split; [exact Hs | exact Hok | lia].
Qed.

Lemma appends_text elem bl level align :
  appends ok_call 1 (@add_text log (recorder fails) elem bl level align).
Proof.
  unfold add_text. destruct (content elem) as [c |]; [| apply appends_nothing].
  destruct (negb (String.eqb c "")); [| apply appends_nothing].
  destruct (negb (String.eqb (Py.strip c) "")) eqn:Hs; [| apply appends_nothing].
  apply (appends_caught (AddText (Py.strip c) bl level align)); [| lia].
  split; [| apply strip_idempotent].
  apply negb_true_iff, String.eqb_neq in Hs. exact Hs.
Qed.

Lemma appends_flattened elem bl :
  appends ok_call 1 (@add_flattened log (recorder fails) path_exists elem bl).
Proof.
  unfold add_flattened.
  destruct (image_path elem) as [p |];
    [| apply (appends_record (AddPlaceholder bl)); [exact I | lia]].
  destruct (negb (String.eqb p "") && path_exists p) eqn:Hp;
    [| apply (appends_record (AddPlaceholder bl)); [exact I | lia]].
  apply andb_true_iff in Hp as [Hne Hex].
  apply (appends_caught (AddImage p bl)); [| lia].
  split; [| exact Hex]. apply negb_true_iff, String.eqb_neq in Hne. exact Hne.
Qed.

Lemma appends_background elem bl :
  Py.truthy (inpainted_background_path elem) = true ->
  appends ok_call 1 (@add_background log (recorder fails) path_exists elem bl).
Proof.
  unfold add_background, Py.truthy.
  destruct (inpainted_background_path elem) as [p |]; [| discriminate].
  intros Hne. destruct (path_exists p) eqn:Hex; [| apply appends_nothing].
  apply (appends_caught (AddImage p bl)); [| lia].
  split; [| exact Hex]. apply negb_true_iff, String.eqb_neq in Hne. exact Hne.
Qed.

Lemma appends_for_each depth (l : list EditableElement) :
  Forall (fun e => appends ok_call (node_count e) (run_element depth e)) l ->
  appends ok_call (forest_count l)
    (@for_each log (run_element depth) l).
Proof.
  induction 1 as [| e l He _ IH]; [apply appends_nothing |].
  apply (appends_bind (run_element depth e) _ _ _ He IH).
Qed.

Lemma appends_element (e : EditableElement) :
  forall depth, appends ok_call (node_count e) (run_element depth e).
Proof.
  induction e as [id ty c l g ip bg cs IH] using EditableElement_tree_ind.
  intros depth. set (elem := mkElement id ty c l g ip bg cs).
  assert (Hkids : appends ok_call (forest_count cs)
                    (@for_each log (run_element (S depth)) cs)).
  { apply appends_for_each. eapply Forall_impl; [exact IH |]. intros e He. apply He. }
  assert (Hrec : Py.truthy (inpainted_background_path elem) = true ->
                 appends ok_call (node_count elem)
                   (fun b => bind (@add_background log (recorder fails) path_exists elem
                                     (bbox_list (select_bbox depth elem) scale_x scale_y) b)
                               (fun _ => @for_each log (run_element (S depth)) cs))).
  { intros Hbg. apply (appends_bind _ _ 1 (forest_count cs));
      [apply appends_background, Hbg | exact Hkids]. }
  assert (Hflat : appends ok_call (node_count elem)
                    (@add_flattened log (recorder fails) path_exists elem
                       (bbox_list (select_bbox depth elem) scale_x scale_y))).
  { eapply appends_weaken; [| apply appends_flattened]. simpl. lia. }
  assert (Htext : forall level align,
             appends ok_call (node_count elem)
               (@add_text log (recorder fails) elem
                  (bbox_list (select_bbox depth elem) scale_x scale_y) level align)).
  { intros. eapply appends_weaken; [| apply appends_text]. simpl. lia. }
  intros l0.
  rewrite (@add_editable_element_unfold log (recorder fails)).
  unfold element_dispatch. fold elem. cbn [children element_type elem].
  change (children elem) with cs.
  destruct (String.eqb ty "text" || String.eqb ty "title"); [apply Htext |].
  destruct (String.eqb ty "table_cell"); [apply Htext |].
  destruct (String.eqb ty "table").
  { destruct (negb (bool_decide (cs = []))
              && Py.truthy (inpainted_background_path elem)) eqn:Hc;
      [| apply Hflat].
    apply andb_true_iff in Hc as [_ Hbg]. apply (Hrec Hbg). }
  destruct (is_image_type elem).
  { destruct (guarded_recursion_enabled elem (select_bbox depth elem)) eqn:Hg;
      [| apply Hflat].
    unfold guarded_recursion_enabled in Hg.
    apply andb_true_iff in Hg as [Hg _]. apply andb_true_iff in Hg as [_ Hbg].
    apply (Hrec Hbg). }
  apply appends_nothing.
Qed.

End EngineCalls.

(** X5: the engine makes at most one builder call for each element of
    the trees it is given, whichever calls raise. *)
Theorem one_call_per_element (path_exists : string -> bool) (scale_x scale_y : Q)
    (fails : log -> call -> bool) (elements : list EditableElement)
    (depth : nat) (l0 : log) :
  exists new,
    state_of (@_add_editable_elements_to_slide log (recorder fails) path_exists
                elements scale_x scale_y depth l0) = l0 ++ new
    /\ (length new <= forest_count elements)%nat.
Proof.
  destruct (appends_for_each path_exists scale_x scale_y fails depth elements)
    with (l0 := l0) as (new & Hs & _ & Hlen).
  { apply Forall_forall. intros e _. apply appends_element. }
  exists new. split; [exact Hs | exact Hlen].
Qed.

(** X6: whichever calls raise, every text box the engine asks for holds
    text that is not empty and has no blank at either end, every image it
    asks for is a file that exists, and it asks for nothing but text boxes,
    images and placeholders. *)
Theorem engine_calls_well_formed (path_exists : string -> bool)
    (scale_x scale_y : Q) (fails : log -> call -> bool)
    (elements : list EditableElement) (depth : nat) (l0 : log) :
  exists new,
    state_of (@_add_editable_elements_to_slide log (recorder fails) path_exists
                elements scale_x scale_y depth l0) = l0 ++ new
    /\ Forall (engine_call_ok path_exists) (attempted new).
Proof.
  destruct (appends_for_each path_exists scale_x scale_y fails depth elements)
    with (l0 := l0) as (new & Hs & Hok & _).
  { apply Forall_forall. intros e _. apply appends_element. }
  exists new. split; [exact Hs | exact Hok].
Qed.

(** ** Pages and documents on the recording builder *)

Section ExportFacts.

Variable path_exists : string -> bool.
Variable fails : log -> call -> bool.

Abbreviation page_run := (@build_page log (recorder fails) path_exists).

Lemma slide_count_app (l1 l2 : log) :
  slide_count (l1 ++ l2) = (slide_count l1 + slide_count l2)%nat.
Proof.
  unfold slide_count, attempted. rewrite fmap_app, filter_app, length_app.
  reflexivity.
Qed.

Lemma slide_count_engine (new : log) :
  Forall (engine_call_ok path_exists) (attempted new) -> slide_count new = 0%nat.
Proof.
  unfold slide_count. generalize (attempted new). intros cs.
  induction 1 as [| c cs Hc _ IH]; [reflexivity |].
  rewrite filter_cons. destruct c; simpl in *; try contradiction; exact IH.
Qed.

Lemma unguarded_never_fails (c : call) (l : log) :
  only_guarded_calls_fail fails -> is_guarded_call c = false -> fails l c = false.
Proof.
  intros Hsafe Hc. destruct (fails l c) eqn:Hf; [| reflexivity].
  apply Hsafe in Hf. congruence.
Qed.

Lemma guarded_placeholders_safe :
  only_guarded_calls_fail fails -> placeholders_safe fails.
Proof. intros Hsafe l bl. apply unguarded_never_fails; auto. Qed.

(** The run of one page, when adding the blank slide does not raise. *)
Lemma build_page_shape (img : EditableImage) (l0 : log) :
  fails l0 AddBlankSlide = false ->
  exists flag new,
    state_of (page_run (Some img) l0)
    = (l0 ++ [(AddBlankSlide, false);
              (AddPicture (page_background path_exists img), flag)]) ++ new
    /\ Forall (engine_call_ok path_exists) (attempted new)
    /\ (length new <= forest_count (elements img))%nat
    /\ raised (page_run (Some img) l0)
       = raised (@_add_editable_elements_to_slide log (recorder fails) path_exists
                   (elements img) 1 1 0
                   (l0 ++ [(AddBlankSlide, false);
                           (AddPicture (page_background path_exists img), flag)])).
Proof.
  intros Hslide.
  set (l1 := l0 ++ [(AddBlankSlide, false)]).
  set (bg := page_background path_exists img).
  destruct (appends_for_each path_exists 1 1 fails 0 (elements img))
    with (l0 := l1 ++ [(AddPicture bg, fails l1 (AddPicture bg))])
    as (new & Hs & Hok & Hlen).
  { apply Forall_forall. intros e _. apply appends_element. }
  exists (fails l1 (AddPicture bg)), new.
  assert (Hrun : page_run (Some img) l0
                 = @_add_editable_elements_to_slide log (recorder fails) path_exists
                     (elements img) 1 1 0
                     (l1 ++ [(AddPicture bg, fails l1 (AddPicture bg))])).
  { unfold build_page. cbn [add_blank_slide recorder]. unfold record at 1.
    rewrite Hslide. cbn [bind]. fold l1.
    assert (Hbg : @add_page_background log (recorder fails) path_exists img l1
                  = Ok tt (l1 ++ [(AddPicture bg, fails l1 (AddPicture bg))])).
    { unfold add_page_background, bg, page_background.
      cbn [add_picture recorder]. unfold record.
      destruct (clean_background img) as [p |];
        [destruct (negb (String.eqb p "") && path_exists p) |];
        match goal with |- context [fails l1 ?c] => destruct (fails l1 c) end;
        reflexivity. }
    rewrite Hbg. reflexivity. }
  rewrite Hrun. unfold l1 in *. rewrite <- !app_assoc in *. cbn [app] in *.
  repeat split; assumption.
Qed.

(** X7: a page starts with a blank slide filled with the clean
    background when one is set and its file exists, and with the page image
    otherwise; the calls that follow are the engine's, at most one for each
    element, so a page without elements gets these two calls and no more. *)
Theorem page_background_first (img : EditableImage) (l0 : log) :
  fails l0 AddBlankSlide = false ->
  exists new,
    attempted (state_of (page_run (Some img) l0))
    = attempted l0
      ++ [AddBlankSlide; AddPicture (page_background path_exists img)]
      ++ attempted new
    /\ Forall (engine_call_ok path_exists) (attempted new)
    /\ (length new <= forest_count (elements img))%nat.
Proof.
  intros Hslide.
  destruct (build_page_shape img l0 Hslide) as (flag & new & Hs & Hok & Hlen & _).
  exists new. rewrite Hs. unfold attempted. rewrite !fmap_app, <- app_assoc.
  repeat split; assumption.
Qed.

Lemma build_page_ok (img : EditableImage) (l0 : log) :
  only_guarded_calls_fail fails ->
  exists l1,
    page_run (Some img) l0 = Ok tt l1
    /\ slide_count l1 = S (slide_count l0).
Proof.
  intros Hsafe.
  destruct (build_page_shape img l0) as (flag & new & Hs & Hok & _ & Hr).
  { apply unguarded_never_fails; auto. }
  destruct (emits_for_each path_exists 1 1 0 (elements img)) as [cs Hcs].
  { apply Forall_forall. intros e _. apply emits_element. }
  destruct (Hcs fails (l0 ++ [(AddBlankSlide, false);
                              (AddPicture (page_background path_exists img), flag)])
              (guarded_placeholders_safe Hsafe)) as [Hnr _].
  unfold _add_editable_elements_to_slide in Hr. rewrite Hnr in Hr.
  destruct (page_run (Some img) l0) as [[] l1 | e l1]; [| discriminate].
  exists l1. split; [reflexivity |]. simpl in Hs. rewrite Hs.
  rewrite !slide_count_app, (slide_count_engine new Hok).
  change (slide_count [(AddBlankSlide, false);
                       (AddPicture (page_background path_exists img), flag)])
    with 1%nat.
  lia.
Qed.

Lemma build_pages_ok (imgs : list EditableImage) :
  only_guarded_calls_fail fails ->
  forall l0, exists l1,
    @build_pages log (recorder fails) path_exists (Some <$> imgs) l0 = Ok tt l1
    /\ slide_count l1 = (slide_count l0 + length imgs)%nat.
Proof.
  intros Hsafe. induction imgs as [| img imgs IH]; intros l0.
  - exists l0. split; [reflexivity | simpl; lia].
  - destruct (build_page_ok img l0 Hsafe) as (l1 & Hp & Hc1).
    destruct (IH l1) as (l2 & Hps & Hc2).
    exists l2. rewrite fmap_cons. cbn [build_pages]. rewrite Hp. cbn [bind].
    split; [exact Hps |]. rewrite Hc2, Hc1. simpl. lia.
Qed.

(** X8: when only the calls made inside a [try] raise (pictures, text
    boxes, images), the export of analysed pages always comes back with a
    document that has one slide for each page; it returns bytes exactly
    when no output file is named. *)
Theorem export_of_analysed_pages (image_paths : option (list string))
    (output_file : option string) (width height : Z)
    (imgs : list EditableImage) (completed : list future) :
  only_guarded_calls_fail fails ->
  exists returned doc,
    @create_editable_pptx_with_recursive_analysis log (recorder fails) path_exists
      image_paths output_file width height (Some imgs) completed
    = Exported returned doc
    /\ slide_count doc = length imgs
    /\ (returned = None <-> Py.truthy output_file = true).
Proof.
  intros Hsafe. unfold create_editable_pptx_with_recursive_analysis, build_document.
  cbn [setup_presentation recorder]. unfold record at 1.
  rewrite (unguarded_never_fails (SetupPresentation width height) [] Hsafe eq_refl).
  cbn [bind app].
  destruct (build_pages_ok imgs Hsafe [(SetupPresentation width height, false)])
    as (l1 & Hps & Hc).
  rewrite Hps. change (slide_count [(SetupPresentation width height, false)]) with 0%nat in Hc.
  destruct (Py.truthy output_file) eqn:Hout.
  - cbn [save recorder]. unfold record.
    rewrite (unguarded_never_fails (Save (default "" output_file)) l1 Hsafe eq_refl).
    eexists _, _. split; [reflexivity |]. split; [| tauto].
    rewrite slide_count_app, Hc.
    change (slide_count [(Save (default "" output_file), false)]) with 0%nat. lia.
  - cbn [to_bytes recorder]. unfold record.
    rewrite (unguarded_never_fails ToBytes l1 Hsafe eq_refl). cbn [bind].
    eexists _, _. split; [reflexivity |]. split.
    + rewrite slide_count_app, Hc.
      change (slide_count [(ToBytes, false)]) with 0%nat. lia.
    + split; [discriminate | discriminate].
Qed.

End ExportFacts.

(** ** The MinerU items *)

Lemma int_zero_times (q : Q) : Py.int (0 * q) = 0.
Proof. reflexivity. Qed.



Section MinerUFacts.

Context {B : Type} `{TableBuilder B}.
Variable path_exists : string -> bool.
Variable path_join : string -> string -> string.
Variable path_name : string -> string.
Variables scale_x scale_y : Q.

(** X9: a text item without text, or whose text is blank, is skipped
    whatever else it holds; so is an item with text whose [bbox] is
    missing, [None], or a list of another length than four.  Nothing is
    added and nothing is raised. *)
Theorem mineru_text_skipped (text_item : gmap string jval) (b : B) :
  (text_item !! "text" = None
   \/ (exists s, text_item !! "text" = Some (JStr s) /\ Py.strip s = ""))
  \/ ((exists s, text_item !! "text" = Some (JStr s))
      /\ (text_item !! "bbox" = None
          \/ text_item !! "bbox" = Some JNone
          \/ exists l, text_item !! "bbox" = Some (JList l) /\ length l <> 4%nat)) ->
  _add_mineru_text_to_slide text_item scale_x scale_y b = Ok tt b.
Proof.
  unfold _add_mineru_text_to_slide, PyVal.get.
  intros [[Hnone | (s & Hs & Hblank)] | [(s & Hs) Hbbox]].
  - rewrite Hnone. reflexivity.
  - rewrite Hs. simpl. rewrite Hblank. reflexivity.
  - rewrite Hs. simpl. destruct (String.eqb (Py.strip s) ""); [reflexivity |].
    destruct Hbbox as [Hb | [Hb | (l & Hb & Hlen)]]; rewrite Hb; try reflexivity.
    simpl. unfold scaled_item_bbox. destruct l as [| v l]; [reflexivity |].
    cbn [PyVal.truthy negb PyVal.len and_then].
    destruct (Nat.eqb_spec (length (v :: l)) 4); [contradiction | reflexivity].
Qed.





(** X12: a cell without [bbox_global] whose text is made of code points
    below 128, not all of them blank, is added as a text box at the origin
    with no width and no height, whatever the finite scale factors. *)
Theorem cell_without_box_at_origin (cell : gmap string jval) (s : string) (b : B) :
  cell !! "content" = Some (JStr s) ->
  is_ascii s = true ->
  Py.strip s <> "" ->
  cell !! "bbox_global" = None ->
  add_table_cell scale_x scale_y (JDict cell) b
  = try_except (add_text_element b s [0; 0; 0; 0] None (Some "center")).
Proof.
  intros Hc _ Hs Hg. unfold add_table_cell, PyVal.get. rewrite Hc, Hg.
  cbn [default from_option Datatypes.id]. apply String.eqb_neq in Hs. rewrite Hs.
  rewrite !lookup_empty. reflexivity.
Qed.



(** X14: an item that is no table is added as an image whatever its
    [html_table] and its children are: setting either changes nothing. *)
Theorem non_table_items_ignore_tables (image_item : gmap string jval)
    (mineru_dir : string) (b : B) (v : jval) (l : list jval) (n : nat) :
  PyVal.eq_str (item_type_of image_item) "table" = false ->
  PyVal.len (PyVal.get image_item "children" (JList [])) = inr n ->
  _add_mineru_image_to_slide path_exists path_join path_name
    (<["html_table" := v]> image_item) mineru_dir scale_x scale_y b
  = _add_mineru_image_to_slide path_exists path_join path_name
      image_item mineru_dir scale_x scale_y b
  /\ _add_mineru_image_to_slide path_exists path_join path_name
       (<["children" := JList l]> image_item) mineru_dir scale_x scale_y b
     = _add_mineru_image_to_slide path_exists path_join path_name
         image_item mineru_dir scale_x scale_y b.
Proof.
  intros Hty Hlen. unfold item_type_of in Hty.
  unfold _add_mineru_image_to_slide, PyVal.get in *.
  split.
  - repeat (rewrite lookup_insert_eq || (rewrite lookup_insert_ne by done)).
    destruct (scaled_item_bbox _ scale_x scale_y) as [e | [bl |]]; try reflexivity.
    rewrite Hlen, Hty. unfold add_cells_step, add_html_table_step.
    rewrite !andb_false_r. reflexivity.
  - repeat (rewrite lookup_insert_eq || (rewrite lookup_insert_ne by done)).
    destruct (scaled_item_bbox _ scale_x scale_y) as [e | [bl |]]; try reflexivity.
    rewrite Hlen, Hty. cbn [default from_option Datatypes.id PyVal.len].
    unfold add_cells_step. rewrite !andb_false_r. reflexivity.
Qed.

End MinerUFacts.

(** ** The image exports *)

Section ImageExportFacts.

Context {W Img : Type} `{ImageLibraries W Img}.
Variable path_exists : string -> bool.
Variable isinstance : exn -> string -> bool.

Lemma valid_paths_exist (paths : list string) :
  Forall (fun p => path_exists p = true) (valid_paths path_exists paths).
Proof.
  induction paths as [| p paths IH]; simpl; [constructor |].
  destruct (path_exists p) eqn:Hp; [constructor; assumption | assumption].
Qed.

Lemma valid_paths_all (paths : list string) :
  Forall (fun p => path_exists p = true) paths ->
  valid_paths path_exists paths = paths.
Proof.
  induction 1 as [| p paths Hp _ IH]; simpl; [reflexivity |].
  rewrite Hp, IH. reflexivity.
Qed.

Lemma valid_paths_idempotent (paths : list string) :
  valid_paths path_exists (valid_paths path_exists paths)
  = valid_paths path_exists paths.
Proof. apply valid_paths_all, valid_paths_exist. Qed.

Lemma valid_paths_none (paths : list string) :
  Forall (fun p => path_exists p = false) paths ->
  valid_paths path_exists paths = [].
Proof.
  induction 1 as [| p paths Hp _ IH]; simpl; [reflexivity |].
  rewrite Hp. exact IH.
Qed.

Lemma add_image_slides_valid (paths : list string) (w : W) :
  add_image_slides path_exists paths w
  = add_image_slides path_exists (valid_paths path_exists paths) w.
Proof.
  revert w. induction paths as [| p paths IH]; intros w; simpl; [reflexivity |].
  destruct (path_exists p) eqn:Hp; simpl; [| apply IH].
  rewrite Hp. simpl. apply bind_ext. intros _ w1. apply bind_ext. intros _ w2.
  apply IH.
Qed.

Lemma load_images_valid (paths : list string) (w : W) :
  load_images path_exists paths w
  = load_images path_exists (valid_paths path_exists paths) w.
Proof.
  revert w. induction paths as [| p paths IH]; intros w; simpl; [reflexivity |].
  destruct (path_exists p) eqn:Hp; simpl; [| apply IH].
  rewrite Hp. simpl. apply bind_ext. intros img w1. apply bind_ext. intros img' w2.
  rewrite IH. reflexivity.
Qed.

(** X15: the PPTX export of images skips the paths that do not exist:
    exporting a list is exporting the paths of it that exist, and when none
    exists the export is that of an empty list, a presentation without
    slides and no error. *)
Theorem pptx_export_skips_missing (paths : list string)
    (output_file : option string) (w : W) :
  create_pptx_from_images path_exists paths output_file w
  = create_pptx_from_images path_exists (valid_paths path_exists paths) output_file w
  /\ (Forall (fun p => path_exists p = false) paths ->
      create_pptx_from_images path_exists paths output_file w
      = create_pptx_from_images path_exists [] output_file w).
Proof.
  assert (Heq : create_pptx_from_images path_exists paths output_file w
                = create_pptx_from_images path_exists
                    (valid_paths path_exists paths) output_file w).
  { unfold create_pptx_from_images. apply bind_ext. intros _ w0.
    rewrite add_image_slides_valid. reflexivity. }
  split; [exact Heq |].
  intros Hnone. rewrite Heq, (valid_paths_none _ Hnone). reflexivity.
Qed.

(** X16: both PDF exports skip the paths that do not exist: exporting a
    list is exporting the paths of it that exist, in their order. *)
Theorem pdf_exports_skip_missing (paths : list string)
    (output_file : option string) (w : W) :
  create_pdf_from_images path_exists isinstance paths output_file w
  = create_pdf_from_images path_exists isinstance
      (valid_paths path_exists paths) output_file w
  /\ create_pdf_from_images_pillow path_exists paths output_file w
     = create_pdf_from_images_pillow path_exists
         (valid_paths path_exists paths) output_file w.
Proof.
  split.
  - unfold create_pdf_from_images. rewrite valid_paths_idempotent. reflexivity.
  - unfold create_pdf_from_images_pillow. rewrite load_images_valid. reflexivity.
Qed.

Lemma load_images_length (paths : list string) :
  forall (w w' : W) (images : list Img),
    load_images path_exists paths w = Ok images w' ->
    length images = length (valid_paths path_exists paths).
Proof.
  induction paths as [| p paths IH]; intros w w' images; simpl.
  - intros Heq. inversion Heq. reflexivity.
  - destruct (path_exists p); simpl; [| apply IH].
    destruct (Image_open w p) as [img w1 | e w1]; simpl; [| discriminate].
    destruct (if negb (String.eqb (Image_mode img) "RGB")
              then Image_convert w1 img "RGB" else Ok img w1)
      as [img' w2 | e w2]; simpl; [| discriminate].
    destruct (load_images path_exists paths w2) as [imgs w3 | e w3] eqn:Hrest;
      simpl; [| discriminate].
    intros Heq. inversion Heq; subst. simpl. f_equal. eapply IH, Hrest.
Qed.

(** X17: the Pillow export puts one image into the PDF for each path
    that exists: when its loading loop returns, it returns as many images
    as there are such paths; when there is none, both PDF exports raise
    [ValueError] and call no library. *)
Theorem pdf_pages_are_existing_images (paths : list string)
    (output_file : option string) (w : W) :
  (forall w' images,
      load_images path_exists paths w = Ok images w' ->
      length images = length (valid_paths path_exists paths))
  /\ (valid_paths path_exists paths = [] ->
      create_pdf_from_images path_exists isinstance paths output_file w
      = Raise (Exception "ValueError") w
      /\ create_pdf_from_images_pillow path_exists paths output_file w
         = Raise (Exception "ValueError") w).
Proof.
  split; [intros w' images; apply load_images_length |].
  intros Hnone. split.
  - unfold create_pdf_from_images. rewrite Hnone. reflexivity.
  - unfold create_pdf_from_images_pillow.
    rewrite load_images_valid, Hnone. reflexivity.
Qed.

(** X18: when img2pdf fails with an error of one of the three classes
    the [except] clause names, be it in the conversion or in writing the
    output file, the export is the Pillow export of the same list, from the
    world the failure left; an error of another class is raised. *)
Theorem pdf_fallback_is_pillow_export (paths : list string)
    (output_file : option string) (w w' : W) (e : exn) :
  valid_paths path_exists paths <> [] ->
  (img2pdf_convert w (valid_paths path_exists paths) = Raise e w'
   \/ exists pdf_bytes w1 f,
        img2pdf_convert w (valid_paths path_exists paths) = Ok pdf_bytes w1
        /\ output_file = Some f /\ f <> ""
        /\ write_file w1 f pdf_bytes = Raise e w') ->
  create_pdf_from_images path_exists isinstance paths output_file w
  = if pdf_fallback_catches isinstance e
    then create_pdf_from_images_pillow path_exists paths output_file w'
    else Raise e w'.
Proof.
  intros Hvalid Hfail. unfold create_pdf_from_images.
  destruct (valid_paths path_exists paths) as [| p ps] eqn:Hv; [contradiction |].
  assert (Hpil : create_pdf_from_images_pillow path_exists paths output_file w'
                 = create_pdf_from_images_pillow path_exists (p :: ps) output_file w').
  { unfold create_pdf_from_images_pillow. rewrite load_images_valid, Hv. reflexivity. }
  rewrite Hpil.
  destruct Hfail as [Hconv | (pdf_bytes & w1 & f & Hconv & -> & Hf & Hwrite)];
    rewrite Hconv; simpl; [reflexivity |].
  apply String.eqb_neq in Hf. rewrite Hf. simpl. rewrite Hwrite. reflexivity.
Qed.

End ImageExportFacts.

(** ** The factories *)

Section FactoryFacts.

Variables Parser BaiduProvider Image : Type.

(** X19: a default configuration fails only when the parser service
    cannot be built; a failure to set up the Baidu extractor or the inpaint
    service is swallowed.  Its extractors end with the MinerU extractor, on
    the parser service and on the upload folder of the configuration;
    before it stands at most the Baidu extractor, on the given provider
    when there is one. *)
Theorem default_configuration_has_mineru
    (is_absolute : string -> bool) (path_join : string -> string -> string)
    (project_root token api_base upload_folder : string)
    (inpainting_service : option (Inpaint.DefaultInpaintProvider Image))
    (given : option BaiduProvider)
    (kwargs : gmap string (Inpaint.pyval Image))
    (new_parser : string -> string -> exn + Parser)
    (create_baidu : exn + option BaiduProvider)
    (get_service : exn + Inpaint.DefaultInpaintProvider Image) :
  match
    Factories.from_defaults Parser BaiduProvider Image is_absolute path_join
      project_root token api_base upload_folder
      inpainting_service given kwargs new_parser create_baidu get_service
  with
  | inl e => new_parser token api_base = inl e
  | inr cfg =>
      exists parser_service before,
        new_parser token api_base = inr parser_service
        /\ Factories.cfg_extractors Parser BaiduProvider Image cfg
           = before
             ++ [Factories.MinerUElementExtractor Parser BaiduProvider
                   parser_service
                   (Factories.cfg_upload_folder Parser BaiduProvider Image cfg)]
        /\ before
           = match given, create_baidu with
             | Some provider, _ =>
                 [Factories.BaiduOCRElementExtractor Parser BaiduProvider provider]
             | None, inr (Some provider) =>
                 [Factories.BaiduOCRElementExtractor Parser BaiduProvider provider]
             | None, _ => []
             end
        /\ (Factories.cfg_inpaint_provider Parser BaiduProvider Image cfg = None
            <-> inpainting_service = None /\ exists e, get_service = inl e)
  end.
Proof.
  unfold Factories.from_defaults.
  destruct (new_parser token api_base) as [e | parser_service]; [reflexivity |].
  exists parser_service. unfold Factories.create_default_extractors.
  cbn [Factories.cfg_extractors Factories.cfg_upload_folder
         Factories.cfg_inpaint_provider].
  eexists. split; [reflexivity |]. split; [reflexivity |]. split.
  - destruct given as [provider |]; [| destruct create_baidu as [e | [provider |]]];
      reflexivity.
  - unfold Factories.create_default_provider.
    destruct inpainting_service as [svc |]; [split; [discriminate | intros [? _]; discriminate] |].
    destruct get_service as [e | svc]; split; try discriminate; eauto.
    intros [_ [e He]]. discriminate.
Qed.

Lemma lstrip_dots_and_slashes (prefix rest : string) :
  dots_and_slashes prefix = true ->
  Factories.lstrip_chars ["."%char; "/"%char] (prefix +:+ rest)
  = Factories.lstrip_chars ["."%char; "/"%char] rest.
Proof.
  induction prefix as [| c prefix IH]; simpl; [reflexivity |].
  intros Hall. apply andb_true_iff in Hall as [Hc Hrest].
  rewrite Hc. apply IH, Hrest.
Qed.

(** X20: a relative upload folder is taken below the project root with
    its leading dots and slashes dropped: prefixing it with any run of dots
    and slashes, [./] or [../] or [/] among them, gives the same
    configuration as long as the folder stays relative. *)
Theorem upload_folder_prefix_dropped
    (is_absolute : string -> bool) (path_join : string -> string -> string)
    (project_root prefix upload_folder token api_base : string)
    (inpainting_service : option (Inpaint.DefaultInpaintProvider Image))
    (given : option BaiduProvider)
    (kwargs : gmap string (Inpaint.pyval Image))
    (new_parser : string -> string -> exn + Parser)
    (create_baidu : exn + option BaiduProvider)
    (get_service : exn + Inpaint.DefaultInpaintProvider Image) :
  dots_and_slashes prefix = true ->
  is_absolute upload_folder = false ->
  is_absolute (prefix +:+ upload_folder) = false ->
  Factories.from_defaults Parser BaiduProvider Image is_absolute path_join
    project_root token api_base (prefix +:+ upload_folder)
    inpainting_service given kwargs new_parser create_baidu get_service
  = Factories.from_defaults Parser BaiduProvider Image is_absolute path_join
      project_root token api_base upload_folder
      inpainting_service given kwargs new_parser create_baidu get_service.
Proof.
  intros Hprefix Hrel Hrel'.
  unfold Factories.from_defaults, Factories.resolve_upload_folder.
  rewrite Hrel, Hrel'. cbn [negb].
  rewrite (lstrip_dots_and_slashes prefix upload_folder Hprefix). reflexivity.
Qed.

End FactoryFacts.

(** ** The inpaint providers and the fan-out, further *)

Section MoreInpaintFacts.

Variable Image : Type.

(** X21: the region-precise provider reads six keyword arguments and
    nothing else: another keyword argument, and the [types] it is given,
    change nothing; the generative provider reads two, and neither the
    boxes nor the [types]. *)
Theorem providers_ignore_other_arguments
    (dflt : Inpaint.DefaultInpaintProvider Image)
    (gen : Inpaint.GenerativeEditInpaintProvider Image)
    (image : Image) (bboxes bboxes' : list (list Z))
    (types types' : option (list string))
    (kwargs : gmap string (Inpaint.pyval Image))
    (key : string) (v : Inpaint.pyval Image) (fs : gset string) :
  (key ∉ ["expand_pixels"; "merge_bboxes"; "merge_threshold";
           "save_mask_path"; "full_page_image"; "crop_box"] ->
   Inpaint.default_inpaint_regions Image dflt image bboxes types
     (<[key := v]> kwargs)
   = Inpaint.default_inpaint_regions Image dflt image bboxes types' kwargs)
  /\ (key ∉ ["aspect_ratio"; "resolution"] ->
      Inpaint.generative_inpaint_regions Image gen image bboxes types
        (<[key := v]> kwargs) fs
      = Inpaint.generative_inpaint_regions Image gen image bboxes' types'
          kwargs fs).
Proof.
  split; intros Hkey.
  - unfold Inpaint.default_inpaint_regions, Inpaint.kwargs_get.
    rewrite !lookup_insert_ne; [reflexivity | ..];
      intros ->; apply Hkey; set_solver.
  - unfold Inpaint.generative_inpaint_regions, Inpaint.kwargs_get.
    rewrite !lookup_insert_ne; [reflexivity | ..];
      intros ->; apply Hkey; set_solver.
Qed.

(** X22: the generative provider returns an image only when every step
    went through, and the image is the editing service's: the prompt was
    obtained, the temporary file was created and written, and
    [edit_image], called with that prompt on that file, returned this
    image, as a PIL image or wrapped. *)
Theorem generative_image_is_the_services
    (gen : Inpaint.GenerativeEditInpaintProvider Image)
    (image img : Image) (bboxes : list (list Z)) (types : option (list string))
    (kwargs : gmap string (Inpaint.pyval Image)) (fs fs' : gset string) :
  Inpaint.generative_inpaint_regions Image gen image bboxes types kwargs fs
  = Ok (Some img) fs' ->
  exists prompt tmp_path,
    Inpaint.get_clean_background_prompt Image gen = inr prompt
    /\ Inpaint.temp_name Image gen fs = inr tmp_path
    /\ Inpaint.image_save Image gen image tmp_path = None
    /\ let edited :=
         Inpaint.edit_image Image gen prompt tmp_path
           (Inpaint.kwargs_get Image kwargs "aspect_ratio"
              (Inpaint.self_aspect_ratio Image gen))
           (Inpaint.kwargs_get Image kwargs "resolution"
              (Inpaint.self_resolution Image gen)) in
       edited = inr (Inpaint.EditedPIL Image img)
       \/ edited = inr (Inpaint.EditedGenAI Image (Some img)).
Proof.
  unfold Inpaint.generative_inpaint_regions, Inpaint.generative_try_body,
    Inpaint.NamedTemporaryFile.
  destruct (Inpaint.get_clean_background_prompt Image gen) as [e | prompt];
    [discriminate |]. simpl.
  destruct (Inpaint.temp_name Image gen fs) as [e | tmp]; [discriminate |]. simpl.
  destruct (Inpaint.image_save Image gen image tmp) as [e |] eqn:Hsave;
    [discriminate |]. simpl.
  destruct (Inpaint.edit_image Image gen prompt tmp _ _) as [e | out] eqn:Hedit;
    [discriminate |].
  destruct out as [| pil | [pil |] |]; simpl; intros Heq; inversion Heq; subst;
    exists prompt, tmp; repeat split; auto; cbv zeta; rewrite Hedit; auto.
Qed.

End MoreInpaintFacts.

(** X23: the batch fails with the first failure to complete: when the
    futures that complete before a failing one all hold results, the loop
    raises the exception of that one, whatever completes after it. *)
Theorem first_failure_to_complete_is_raised
    (before after : list future) (idx : nat) (e : exn)
    (results : list (option EditableImage)) :
  Forall (fun f => (f.1 < length results)%nat /\ exists v, f.2 = inr v) before ->
  collect (before ++ (idx, inl e) :: after) results = inl e.
Proof.
  intros Hbefore. revert results Hbefore.
  induction before as [| [i r] before IH]; intros results Hb; [reflexivity |].
  apply Forall_cons in Hb as [[Hi (v & Hv)] Hb]. simpl in Hi, Hv. subst r.
  cbn [app collect]. apply Nat.ltb_lt in Hi. rewrite Hi.
  apply IH. eapply Forall_impl; [exact Hb |].
  intros f [Hf Hv]. rewrite length_insert. auto.
Qed.

(** * The further properties at sample inputs *)

Section MoreSampleRuns.

Import Samples MoreSamples.

Lemma leaf_types_ignore_children_witness :
  @add_editable_element log (recorder never_fails) every_file 1 1 0
    (with_children [table] heading) []
  = @add_editable_element log (recorder never_fails) every_file 1 1 0 heading [].
Proof.
  apply (@leaf_types_ignore_children log (recorder never_fails) every_file 1 1
           0%nat heading [table] []).
  reflexivity.
Defined.


(** The box of the witness, placed. *)
Example placed_box_sample :
  bbox_list (box 10 20 (201 # 2) 50) 1.5 0.5 = [15; 10; 150; 25].
Proof. reflexivity. Qed.

Lemma page_background_first_witness :
  exists new,
    attempted (state_of (@build_page log (recorder never_fails) every_file
                           (Some titled_page) []))
    = attempted []
      ++ [AddBlankSlide; AddPicture (page_background every_file titled_page)]
      ++ attempted new
    /\ Forall (engine_call_ok every_file) (attempted new)
    /\ (length new <= forest_count (elements titled_page))%nat.
Proof.
  apply (page_background_first every_file never_fails titled_page []).
  reflexivity.
Defined.

(** The page of the witness: with its clean background on disk, and
    without. *)
Example titled_page_runs :
  attempted (state_of (@build_page log (recorder never_fails) every_file
                         (Some titled_page) []))
  = [AddBlankSlide; AddPicture "p1_clean.png";
     AddText "Results" [0; 0; 300; 40] (Some "title") None]
  /\ attempted (state_of (@build_page log (recorder never_fails) no_file
                            (Some titled_page) []))
     = [AddBlankSlide; AddPicture "p1.png";
        AddText "Results" [0; 0; 300; 40] (Some "title") None].
Proof. split; reflexivity. Qed.

Lemma export_of_analysed_pages_witness :
  exists returned doc,
    @create_editable_pptx_with_recursive_analysis log (recorder guarded_calls_fail)
      every_file None (Some "out.pptx") 1920 1080
      (Some [titled_page; blank "p2.png"]) []
    = Exported returned doc
    /\ slide_count doc = length [titled_page; blank "p2.png"]
    /\ (returned = None <-> Py.truthy (Some "out.pptx") = true).
Proof.
  apply (export_of_analysed_pages every_file guarded_calls_fail None
           (Some "out.pptx") 1920 1080 [titled_page; blank "p2.png"] []).
  intros l c Hc. exact Hc.
Defined.

(** The export of the witness: every picture and text box fails, the two
    slides are there and the file is saved. *)
Example export_with_failing_calls :
  @create_editable_pptx_with_recursive_analysis log (recorder guarded_calls_fail)
    every_file None (Some "out.pptx") 1920 1080
    (Some [titled_page; blank "p2.png"]) []
  = Exported None
      [ (SetupPresentation 1920 1080, false);
        (AddBlankSlide, false); (AddPicture "p1_clean.png", true);
        (AddText "Results" [0; 0; 300; 40] (Some "title") None, true);
        (AddBlankSlide, false); (AddPicture "p2.png", true);
        (Save "out.pptx", false) ].
Proof. reflexivity. Qed.

Lemma mineru_text_skipped_witness :
  @_add_mineru_text_to_slide log (recorder never_fails) empty_item 1 1 []
  = Ok tt []
  /\ @_add_mineru_text_to_slide log (recorder never_fails)
       (<["text" := JStr "cut off"]> (<["bbox" := JList [JNum 1; JNum 2]]> ∅)) 1 1 []
     = Ok tt [].
Proof.
  split.
  - apply (@mineru_text_skipped log (recorder never_fails) 1 1 empty_item []).
    left. left. apply lookup_empty.
  - apply (@mineru_text_skipped log (recorder never_fails) 1 1
             (<["text" := JStr "cut off"]> (<["bbox" := JList [JNum 1; JNum 2]]> ∅)) []).
    right. split.
    + exists "cut off". apply lookup_insert_eq.
    + right. right. exists [JNum 1; JNum 2]. split; [| discriminate].
      rewrite lookup_insert_ne by done. apply lookup_insert_eq.
Defined.



(** The cell of the table, by either path. *)
Example table_cell_by_either_path :
  @_add_table_cell_elements_to_slide log (recorder never_fails)
    (cell_of <$> children table) 1 1 []
  = Ok tt [(AddText "42" [10; 10; 20; 15] None (Some "center"), false)].
Proof. vm_compute. reflexivity. Qed.

Lemma cell_without_box_at_origin_witness :
  @add_table_cell log (recorder never_fails) 3 2 (JDict bare_cell) []
  = try_except (@add_text_element log (recorder never_fails) [] "x" [0; 0; 0; 0]
                  None (Some "center")).
Proof.
  apply (@cell_without_box_at_origin log (recorder never_fails) 3 2 bare_cell "x" []).
  - apply lookup_insert_eq.
  - reflexivity.
  - discriminate.
  - unfold bare_cell. rewrite lookup_insert_ne by done. apply lookup_empty.
Defined.


(** The table of the witness: its child is no dictionary, no file is
    there, one placeholder is added. *)
Example odd_table_run :
  @_add_mineru_image_to_slide log (recorder never_fails)
    (table_recorder never_fails no_tables) no_file join base_name
    odd_table "mineru" 1 1 []
  = Ok tt [(AddPlaceholder [0; 0; 10; 10], false)].
Proof. vm_compute. reflexivity. Qed.

Lemma non_table_items_ignore_tables_witness :
  @_add_mineru_image_to_slide log (recorder never_fails)
    (table_recorder never_fails no_tables) every_file join base_name
    (<["html_table" := JStr "<table/>"]> plain_image) "mineru" 1 1 []
  = @_add_mineru_image_to_slide log (recorder never_fails)
      (table_recorder never_fails no_tables) every_file join base_name
      plain_image "mineru" 1 1 []
  /\ @_add_mineru_image_to_slide log (recorder never_fails)
       (table_recorder never_fails no_tables) every_file join base_name
       (<["children" := JList [JDict bare_cell]]> plain_image) "mineru" 1 1 []
     = @_add_mineru_image_to_slide log (recorder never_fails)
         (table_recorder never_fails no_tables) every_file join base_name
         plain_image "mineru" 1 1 [].
Proof.
  apply (@non_table_items_ignore_tables log (recorder never_fails)
           (table_recorder never_fails no_tables) every_file join base_name 1 1
           plain_image "mineru" [] (JStr "<table/>") [JDict bare_cell] 0%nat).
  - unfold item_type_of, plain_image, PyVal.get.
    repeat (rewrite lookup_insert_eq || (rewrite lookup_insert_ne by done)
            || rewrite lookup_empty).
    reflexivity.
  - unfold plain_image, PyVal.get.
    repeat (rewrite lookup_insert_eq || (rewrite lookup_insert_ne by done)
            || rewrite lookup_empty).
    reflexivity.
Defined.

(** The image of the witness: found at the first place looked at. *)
Example plain_image_run :
  @_add_mineru_image_to_slide log (recorder never_fails)
    (table_recorder never_fails no_tables) every_file join base_name
    plain_image "mineru" 1 1 []
  = Ok tt [(AddImage "mineru/a.png" [0; 0; 10; 10], false)].
Proof. vm_compute. reflexivity. Qed.

Lemma pptx_export_skips_missing_witness :
  @create_pptx_from_images (list lib_call) (string * string)
    (recording_libraries libraries_work) no_file ["a.png"; "b.png"] None []
  = @create_pptx_from_images (list lib_call) (string * string)
      (recording_libraries libraries_work) no_file [] None [].
Proof.
  apply (proj2 (@pptx_export_skips_missing (list lib_call) (string * string)
                  (recording_libraries libraries_work) no_file
                  ["a.png"; "b.png"] None [])).
  repeat constructor.
Defined.

(** Two images that exist, and two that do not. *)
Example pptx_export_runs :
  @create_pptx_from_images (list lib_call) (string * string)
    (recording_libraries libraries_work) every_file ["a.png"; "b.png"] None []
  = Ok (Some [80; 75])
      [PrsNew 9144000 5143500; PrsAddSlide 6; PrsAddPicture "a.png";
       PrsAddSlide 6; PrsAddPicture "b.png"; PrsSaveBytes]
  /\ @create_pptx_from_images (list lib_call) (string * string)
       (recording_libraries libraries_work) no_file ["a.png"; "b.png"]
       (Some "deck.pptx") []
     = Ok None [PrsNew 9144000 5143500; PrsSave "deck.pptx"].
Proof. split; reflexivity. Qed.

Lemma pdf_pages_are_existing_images_witness :
  length [("a.png", "RGB"); ("b.png", "RGB")]
  = length (valid_paths every_file ["a.png"; "b.png"])
  /\ @create_pdf_from_images (list lib_call) (string * string)
       (recording_libraries libraries_work) no_file class_named
       ["a.png"; "b.png"] None []
     = Raise (Exception "ValueError") []
  /\ @create_pdf_from_images_pillow (list lib_call) (string * string)
       (recording_libraries libraries_work) no_file ["a.png"; "b.png"] None []
     = Raise (Exception "ValueError") [].
Proof.
  split.
  - apply (proj1 (@pdf_pages_are_existing_images (list lib_call) (string * string)
                    (recording_libraries libraries_work) every_file class_named
                    ["a.png"; "b.png"] None [])
             [ImageOpen "a.png"; ImageConvert "a.png" "RGB";
              ImageOpen "b.png"; ImageConvert "b.png" "RGB"]).
    reflexivity.
  - apply (proj2 (@pdf_pages_are_existing_images (list lib_call) (string * string)
                    (recording_libraries libraries_work) no_file class_named
                    ["a.png"; "b.png"] None [])).
    reflexivity.
Defined.

Lemma pdf_fallback_is_pillow_export_witness :
  @create_pdf_from_images (list lib_call) (string * string)
    (recording_libraries img2pdf_broken) every_file class_named
    ["a.png"; "b.png"] (Some "deck.pdf") []
  = if pdf_fallback_catches class_named (Exception "ImageOpenError")
    then @create_pdf_from_images_pillow (list lib_call) (string * string)
           (recording_libraries img2pdf_broken) every_file
           ["a.png"; "b.png"] (Some "deck.pdf")
           [Img2pdfConvert ["a.png"; "b.png"]]
    else Raise (Exception "ImageOpenError") [Img2pdfConvert ["a.png"; "b.png"]].
Proof.
  apply (@pdf_fallback_is_pillow_export (list lib_call) (string * string)
           (recording_libraries img2pdf_broken) every_file class_named
           ["a.png"; "b.png"] (Some "deck.pdf") []
           [Img2pdfConvert ["a.png"; "b.png"]] (Exception "ImageOpenError")).
  - discriminate.
  - left. reflexivity.
Defined.

(** The export of the witness: img2pdf fails, Pillow writes the file. *)
Example pdf_fallback_run :
  @create_pdf_from_images (list lib_call) (string * string)
    (recording_libraries img2pdf_broken) every_file class_named
    ["a.png"; "b.png"] (Some "deck.pdf") []
  = Ok None
      [Img2pdfConvert ["a.png"; "b.png"];
       ImageOpen "a.png"; ImageConvert "a.png" "RGB";
       ImageOpen "b.png"; ImageConvert "b.png" "RGB";
       ImageSavePdf 2 "deck.pdf"].
Proof. reflexivity. Qed.

Lemma upload_folder_prefix_dropped_witness :
  Factories.from_defaults unit unit unit starts_with_slash join "/srv/app"
    "token" "https://mineru.net" ("../" +:+ "uploads")
    None None ∅ (fun _ _ => inr tt) (inr None) (inl (Exception "ImportError"))
  = Factories.from_defaults unit unit unit starts_with_slash join "/srv/app"
      "token" "https://mineru.net" "uploads"
      None None ∅ (fun _ _ => inr tt) (inr None) (inl (Exception "ImportError")).
Proof.
  apply (upload_folder_prefix_dropped unit unit unit starts_with_slash join
           "/srv/app" "../" "uploads" "token" "https://mineru.net"
           None None ∅ (fun _ _ => inr tt) (inr None)
           (inl (Exception "ImportError"))); reflexivity.
Defined.

(** The configuration of the witness. *)
Example default_configuration :
  Factories.from_defaults unit unit unit starts_with_slash join "/srv/app"
    "token" "https://mineru.net" "../uploads"
    None None ∅ (fun _ _ => inr tt) (inr None) (inl (Exception "ImportError"))
  = inr {| Factories.cfg_upload_folder := "/srv/app/uploads";
           Factories.cfg_extractors :=
             [Factories.MinerUElementExtractor unit unit tt "/srv/app/uploads"];
           Factories.cfg_inpaint_provider := None;
           Factories.cfg_max_depth := Inpaint.PInt unit 3;
           Factories.cfg_min_image_size := Inpaint.PInt unit 200;
           Factories.cfg_min_image_area := Inpaint.PInt unit 40000 |}.
Proof. reflexivity. Qed.

Lemma providers_ignore_other_arguments_witness :
  Inpaint.default_inpaint_regions nat
    {| Inpaint.remove_regions_by_bboxes := fun args =>
         inr (Some (Inpaint.arg_image nat args)) |}
    7%nat [[0; 0; 5; 5]] (Some ["text"])
    (<["verbose" := Inpaint.PBool nat true]> ∅)
  = Inpaint.default_inpaint_regions nat
      {| Inpaint.remove_regions_by_bboxes := fun args =>
           inr (Some (Inpaint.arg_image nat args)) |}
      7%nat [[0; 0; 5; 5]] None ∅
  /\ Inpaint.generative_inpaint_regions nat working_provider 7%nat
       [[0; 0; 5; 5]] (Some ["text"])
       (<["verbose" := Inpaint.PBool nat true]> ∅) ∅
     = Inpaint.generative_inpaint_regions nat working_provider 7%nat
         [] None ∅ ∅.
Proof.
  destruct (providers_ignore_other_arguments nat
              {| Inpaint.remove_regions_by_bboxes := fun args =>
                   inr (Some (Inpaint.arg_image nat args)) |}
              working_provider 7%nat [[0; 0; 5; 5]] [] (Some ["text"]) None ∅
              "verbose" (Inpaint.PBool nat true) ∅) as [Hd Hg].
  split; [apply Hd | apply Hg];
    intros Hin%list_elem_of_In; simpl in Hin; intuition discriminate.
Defined.

Lemma generative_image_is_the_services_witness :
  exists prompt tmp_path,
    Inpaint.get_clean_background_prompt nat working_provider = inr prompt
    /\ Inpaint.temp_name nat working_provider ∅ = inr tmp_path
    /\ Inpaint.image_save nat working_provider 0%nat tmp_path = None
    /\ let edited :=
         Inpaint.edit_image nat working_provider prompt tmp_path
           (Inpaint.kwargs_get nat ∅ "aspect_ratio"
              (Inpaint.self_aspect_ratio nat working_provider))
           (Inpaint.kwargs_get nat ∅ "resolution"
              (Inpaint.self_resolution nat working_provider)) in
       edited = inr (Inpaint.EditedPIL nat 7%nat)
       \/ edited = inr (Inpaint.EditedGenAI nat (Some 7%nat)).
Proof.
  apply (generative_image_is_the_services nat working_provider 0%nat 7%nat
           [] None ∅ ∅ ({["/tmp/tmpa1b2c3.png"]} ∪ ∅)).
  reflexivity.
Defined.

Lemma first_failure_to_complete_is_raised_witness :
  collect ([(2%nat, analysis_page2_fails "p3.png");
            (0%nat, analysis_page2_fails "p1.png")]
           ++ (1%nat, inl (Exception "analysis failed")) :: [])
    [None; None; None]
  = inl (Exception "analysis failed").
Proof.
  apply (first_failure_to_complete_is_raised
           [(2%nat, analysis_page2_fails "p3.png");
            (0%nat, analysis_page2_fails "p1.png")] [] 1%nat
           (Exception "analysis failed") [None; None; None]).
  repeat constructor; simpl; try lia; eexists; reflexivity.
Defined.

Lemma default_configuration_has_mineru_witness :
  match
    Factories.from_defaults unit unit unit starts_with_slash join "/srv/app"
      "token" "https://mineru.net" "../uploads"
      None None ∅ (fun _ _ => inr tt) (inr None) (inl (Exception "ImportError"))
  with
  | inl e => (fun _ _ => inr tt) "token" "https://mineru.net" = @inl exn unit e
  | inr cfg =>
      exists parser_service before,
        (fun _ _ => inr tt) "token" "https://mineru.net"
        = @inr exn unit parser_service
        /\ Factories.cfg_extractors unit unit unit cfg
           = before
             ++ [Factories.MinerUElementExtractor unit unit parser_service
                   (Factories.cfg_upload_folder unit unit unit cfg)]
        /\ before = []
        /\ (Factories.cfg_inpaint_provider unit unit unit cfg = None
            <-> @None (Inpaint.DefaultInpaintProvider unit) = None
                /\ exists e, @inl exn (Inpaint.DefaultInpaintProvider unit)
                               (Exception "ImportError") = inl e)
  end.
Proof.
  exact (default_configuration_has_mineru unit unit unit starts_with_slash join
           "/srv/app" "token" "https://mineru.net" "../uploads"
           None None ∅ (fun _ _ => inr tt) (inr None)
           (inl (Exception "ImportError"))).
Defined.

End MoreSampleRuns.
